(** * UG4Tests: the regression and unit test harness, embedded and verified

    The development follows the repository:
    - [IEEE]            the element types [float] and [double] (IEEE 754
                        binary32 and binary64), on the Standard Library's
                        executable specification of floating point;
    - [RegressionTests] [regression_tests/testcase.h] and
                        [regression_tests/laplace.cpp];
    - [VectorTests]     the vector functions exercised by
                        [unit_tests/vector_tests.cpp]. *)

From Stdlib Require Import ZArith QArith List String Bool Lia.
From Stdlib Require Import Ascii DecimalString.
From Stdlib Require Import Floats.SpecFloat.
Import ListNotations.

Local Open Scope string_scope.
Local Open Scope list_scope.
Local Open Scope Z_scope.

(* ================================================================== *)
(** * Floating point element types *)

Module IEEE.

(** A floating point format, as [SpecFloat] parameterises it: [prec] bits of
    mantissa (the implicit bit included), infinities at exponent [emax]. *)
Class ValueType : Type := { prec : Z; emax : Z }.

(** C++ [float] and [double] on the targets UG4 builds for. *)
#[export] Instance float : ValueType := {| prec := 24; emax := 128 |}.
#[export] Instance double : ValueType := {| prec := 53; emax := 1024 |}.

(** Values of either type; the operations below round to the format. *)
Definition value : Type := spec_float.

Section Ops.
Context {T : ValueType}.

Definition add (x y : value) : value := SFadd prec emax x y.
Definition sub (x y : value) : value := SFsub prec emax x y.
Definition mul (x y : value) : value := SFmul prec emax x y.
Definition div (x y : value) : value := SFdiv prec emax x y.

(** Conversion of an integer, as in [c = 0] or the weight [2]. *)
Definition of_int (z : Z) : value := binary_normalize prec emax z 0 false.

(** A decimal literal [n / 10^k] of the program text, rounded to nearest:
    both operands are exact in every case used, so the quotient is the
    correctly rounded value of the literal. *)
Definition literal (n : Z) (k : nat) : value :=
  div (of_int n) (of_int (10 ^ Z.of_nat k)).

Definition valid (x : value) : bool := valid_binary prec emax x.
End Ops.

Definition abs (x : value) : value := SFabs x.
Definition ltb (x y : value) : bool := SFltb x y.
Definition leb (x y : value) : bool := SFleb x y.
(** C++ [==]: [+0 == -0], and a NaN equals nothing. *)
Definition eqb (x y : value) : bool := SFeqb x y.

Definition is_nan (x : value) : bool :=
  match x with S754_nan => true | _ => false end.

Definition zero : value := S754_zero false.
Definition neg_zero : value := S754_zero true.

(** [x] and [y] are the same number: the same datum, or the zero [+0] for
    the zero [-0], which C++ [==] does not tell apart. *)
Definition same_number (x y : value) : Prop :=
  x = y \/ (x = zero /\ y = neg_zero).

(** [x] is a number (not NaN) whose sign bit is [s]. *)
Definition has_sign (s : bool) (x : value) : Prop :=
  match x with
  | S754_nan => False
  | S754_zero s' | S754_infinity s' | S754_finite s' _ _ => s' = s
  end.

(** The exact rational [m * 2^e] behind a mantissa and an exponent. *)
Definition magnitude (m : positive) (e : Z) : Q :=
  match e with
  | Zneg p => Qmake (Zpos m) (2 ^ p)
  | _ => inject_Z (Zpos m * 2 ^ e)
  end.

(** The exact rational a finite value stands for. *)
Definition to_Q (x : value) : option Q :=
  match x with
  | S754_zero _ => Some 0%Q
  | S754_finite s m e =>
      Some (if s then Qopp (magnitude m e) else magnitude m e)
  | _ => None
  end.

Section Powers.
Context {T : ValueType}.


End Powers.



End IEEE.

Import IEEE.

(* ================================================================== *)
(** * regression_tests/testcase.h and regression_tests/laplace.cpp *)

Module RegressionTests.

(** How a member function ends. *)
Inductive outcome (A : Type) : Type :=
| Returned (a : A)
| Thrown (msg : string)          (* UG_THROW: a UGError carrying [msg] *)
| OutOfBounds                    (* std::vector::operator[] past the end *)
| NullPointer.                   (* a SmartPtr that was never set *)
Arguments Returned {A} a.
Arguments Thrown {A} msg.
Arguments OutOfBounds {A}.
Arguments NullPointer {A}.

(** What [compare] does that can be observed: the elements it reads and the
    text it writes to [std::cout]. *)
Inductive event : Type :=
| ReadSolution (i : nat)
| ReadReference (i : nat)
| Print (s : string).

(** Calls into the UG4 framework, with their literal arguments. *)
Inductive call : Type :=
| InitUG (dim : Z) (algebra : string) (blocksize : Z)
| Domain_new
| LoadDomain (file : string)
| GlobalMultiGridRefiner_new
| GlobalMultiGridRefiner_refine
| ApproximationSpace_new
| ApproximationSpace_add (name type : string) (order : Z)
| init_top_surface
| ConvectionDiffusionFV1_new (fct subsets : string)
| set_diffusion (d : value)
| set_reaction (r : value)
| DirichletBoundary_new
| DirichletBoundary_add (v : value) (fct subsets : string)
| DomainDiscretization_new
| DomainDiscretization_add_elem_disc
| DomainDiscretization_add_constraint
| Jacobi_new (damp : value)
| SuperLUSolver_new
| AgglomeratingSolver_new
| StdTransfer_new
| enable_p1_lagrange_optimization (b : bool)
| AssembledMultiGridCycle_new
| set_base_solver
| set_smoother
| set_base_level (lvl : Z)
| set_cycle_type (type : string)
| set_num_presmooth (n : Z)
| set_num_postsmooth (n : Z)
| set_rap (b : bool)
| set_smooth_on_surface_rim (b : bool)
| set_emulate_full_refined_grid (b : bool)
| set_gathered_base_solver_if_ambiguous (b : bool)
| set_transfer
| StdConvCheck_new (maxSteps : Z) (minDefect relReduction : value)
                   (verbose : bool)
| BiCGStab_new
| set_preconditioner
| set_convergence_check
| AssembledLinearOperator_new
| GridFunction_new
| GridFunction_set (v : value)
| adjust_solution
| assemble_linear
| solver_init
| solver_apply
| get_values.

Definition call_is_refine (c : call) : bool :=
  match c with GlobalMultiGridRefiner_refine => true | _ => false end.

(** The members of [Testcase<dim>] the harness itself reads and writes; the
    framework objects behind the other smart pointers are opaque. *)
Record Testcase : Type := {
  m_spReference : option (list value);
  m_spSolution : option (list value);
  m_gridname : string;
  m_reference : string
}.

(** [Testcase(string grid, string reference)]: the smart pointers start
    out null. *)
Definition Testcase_new (grid reference : string) : Testcase :=
  {| m_spReference := None; m_spSolution := None;
     m_gridname := grid; m_reference := reference |}.

(** [void run()] of the base class. *)
Definition run (tc : Testcase) : outcome Testcase :=
  Thrown "run() function of testcase not implemented.".

(** The literal [0.000001]. *)
Definition tolerance : value := @literal double 1 6.

(** [bool isEqual(double a, double b)]: [abs(a - b) < 0.000001], with [abs]
    the absolute value of a double, as the comment on the function has it
    ("equal within a tolerance of 0.000001"). *)
Definition isEqual (a b : value) : bool :=
  ltb (abs (@sub double a b)) tolerance.

(** The files [read_reference] can open: a file name gives the doubles that
    [std::istream_iterator<double>] extracts from it (none when the file
    cannot be opened). *)
Definition files : Type := string -> list value.

(** [void read_reference()]. *)
Definition read_reference (fs : files) (tc : Testcase) : Testcase :=
  {| m_spReference := Some (fs (m_reference tc));
     m_spSolution := m_spSolution tc;
     m_gridname := m_gridname tc; m_reference := m_reference tc |}.

(** [operator<<] on a [size_t]. *)
Definition show_size_t (i : nat) : string :=
  NilEmpty.string_of_uint (Nat.to_uint i).

Definition endl : string := String (Ascii.ascii_of_nat 10) EmptyString.

(** The loop of [compare], over the indices [i = 0 .. size()-1] still to
    visit. *)
Fixpoint compare_loop (solution reference : list value) (indices : list nat)
  : list event * outcome bool :=
  match indices with
  | [] => ([], Returned true)
  | i :: rest =>
      match nth_error solution i with
      | None => ([ReadSolution i], OutOfBounds)
      | Some a =>
          match nth_error reference i with
          | None => ([ReadSolution i; ReadReference i], OutOfBounds)
          | Some b =>
              if negb (isEqual a b) then
                ([ReadSolution i; ReadReference i;
                  Print ("Not equal at " ++ show_size_t i ++ endl)%string],
                 Returned false)
              else
                let (t, r) := compare_loop solution reference rest in
                (ReadSolution i :: ReadReference i :: t, r)
          end
      end
  end.

(** [bool compare()]. *)
Definition compare (fs : files) (tc : Testcase) : list event * outcome bool :=
  let tc := read_reference fs tc in
  match m_spSolution tc, m_spReference tc with
  | Some solution, Some reference =>
      compare_loop solution reference (seq 0 (List.length solution))
  | _, _ => ([], NullPointer)
  end.

(** Observations on what [compare] did. *)
Definition reads_solution (t : list event) : list nat :=
  flat_map (fun e => match e with ReadSolution i => [i] | _ => [] end) t.
Definition reads_reference (t : list event) : list nat :=
  flat_map (fun e => match e with ReadReference i => [i] | _ => [] end) t.
Definition output (t : list event) : list string :=
  flat_map (fun e => match e with Print s => [s] | _ => [] end) t.

(** The events of the iterations that go through without a mismatch. *)
Definition visits (indices : list nat) : list event :=
  flat_map (fun i => [ReadSolution i; ReadReference i]) indices.

(** The spec's words for the two sides of the tolerance test, on the
    computed difference [a - b] and the double nearest to 10^-6. *)
Definition differ_by_less_than_tolerance (a b : value) : Prop :=
  SFcompare (abs (@sub double a b))
            (S754_finite false 4722366482869645 (-72)) = Some Lt.
Definition differ_by_tolerance_or_more (a b : value) : Prop :=
  leb (S754_finite false 4722366482869645 (-72)) (abs (@sub double a b))
  = true.

(** The pair fails the tolerance test: the computed difference is the
    tolerance or more, or it is not a number (a NaN operand, or two
    infinities of one sign). *)
Definition fails_tolerance (a b : value) : Prop :=
  differ_by_tolerance_or_more a b \/ is_nan (@sub double a b) = true.

(** The number the literal [0.000001] stands for as a double:
    4722366482869645 * 2^-72. *)
Definition tolerance_value : Q :=
  4722366482869645 # 4722366482869645213696.

(** The pair at index [i] exists and passes [isEqual]. *)
Definition equal_at (solution reference : list value) (i : nat) : Prop :=
  exists a b, nth_error solution i = Some a /\
              nth_error reference i = Some b /\ isEqual a b = true.

(** The pair at index [i] exists and fails [isEqual]. *)
Definition mismatch_at (solution reference : list value) (i : nat) : Prop :=
  exists a b, nth_error solution i = Some a /\
              nth_error reference i = Some b /\ isEqual a b = false.

(** A test case whose [run] has stored [solution], and a directory that
    holds its reference file with the values [reference]. *)
Definition solved (solution : list value) : Testcase :=
  {| m_spReference := None; m_spSolution := Some solution;
     m_gridname := "laplace_sphere_3d.ugx"; m_reference := "laplace.txt" |}.
Definition reference_file (reference : list value) : files :=
  fun name => if String.eqb name "laplace.txt" then reference else [].

(** C++ [int]: 32 bits, two's complement. *)
Definition INT_MIN : Z := - 2 ^ 31.
Definition INT_MAX : Z := 2 ^ 31 - 1.
Definition int_wrap (z : Z) : Z := (z + 2 ^ 31) mod 2 ^ 32 - 2 ^ 31.

(** The loop of [refine]: [for (int i = 0; i < numRefs; i++) ref.refine();]
    [fuel] bounds the number of iterations. *)
Fixpoint refine_loop (fuel : nat) (i numRefs : Z) : list call :=
  match fuel with
  | O => []
  | S fuel' =>
      if i <? numRefs then
        GlobalMultiGridRefiner_refine
          :: refine_loop fuel' (int_wrap (i + 1)) numRefs
      else []
  end.

(** [void refine(int numRefs)]. *)
Definition refine (numRefs : Z) : list call :=
  GlobalMultiGridRefiner_new :: refine_loop (Z.to_nat numRefs) 0 numRefs.

(** The UG4 framework, as far as the tests can tell: given the calls made
    so far, the next call returns or throws a [UGError] with a message
    (as [LoadDomain] does for a grid file it cannot read). *)
Definition framework : Type := list call -> call -> option string.

(** The calls [todo] made in order after the calls [made], up to the first
    that throws: the calls made by then, and the message thrown if any. *)
Fixpoint perform (fw : framework) (made todo : list call)
  : list call * option string :=
  match todo with
  | [] => (made, None)
  | c :: rest =>
      match fw made c with
      | Some msg => (made ++ [c], Some msg)
      | None => perform fw (made ++ [c]) rest
      end
  end.

(** A framework in which every call returns, and one in which [LoadDomain]
    throws. *)
Definition fw_returns : framework := fun _ _ => None.
Definition fw_no_grid : framework :=
  fun _ c => match c with
             | LoadDomain _ => Some "grid file not found"
             | _ => None
             end.

Module Laplace.

(** The framework calls of [Laplace::run()], in program order. *)
Definition run_calls (tc : Testcase) : list call :=
  [InitUG 3 "CPU" 1;
   Domain_new;
   LoadDomain (m_gridname tc)]
  ++ refine 4 ++
  [ApproximationSpace_new;
   ApproximationSpace_add "c" "Lagrange" 1;
   init_top_surface;
   ConvectionDiffusionFV1_new "c" "Inner";
   set_diffusion (@literal double 10 1);
   set_reaction (@literal double 0 1);
   DirichletBoundary_new;
   DirichletBoundary_add (@of_int double (-1)) "c" "bndNegative";
   DirichletBoundary_add (@of_int double 1) "c" "bndPositive";
   DomainDiscretization_new;
   DomainDiscretization_add_elem_disc;
   DomainDiscretization_add_constraint;
   Jacobi_new (@literal double 66 2);
   SuperLUSolver_new;
   AgglomeratingSolver_new;
   StdTransfer_new;
   enable_p1_lagrange_optimization true;
   AssembledMultiGridCycle_new;
   set_base_solver;
   set_smoother;
   set_base_level 0;
   set_cycle_type "V";
   set_num_presmooth 3;
   set_num_postsmooth 3;
   set_rap false;
   set_smooth_on_surface_rim false;
   set_emulate_full_refined_grid false;
   set_gathered_base_solver_if_ambiguous false;
   set_transfer;
   StdConvCheck_new 100 (@literal double 1 12) (@literal double 1 6) true;
   BiCGStab_new;
   set_preconditioner;
   set_convergence_check;
   AssembledLinearOperator_new;
   GridFunction_new;
   GridFunction_new;
   GridFunction_set (@literal double 0 1);
   adjust_solution;
   assemble_linear;
   solver_init;
   solver_apply;
   get_values].

(** [void Laplace::run()].  The calls are made in order; an exception of
    the framework leaves [run] at the call that throws, before the solution
    is stored.  [values] is what the framework's [get_values] hands back
    when every call has returned. *)
Definition run (fw : framework) (values : list value) (tc : Testcase)
  : list call * outcome Testcase :=
  match perform fw [] (run_calls tc) with
  | (made, Some msg) => (made, Thrown msg)
  | (made, None) =>
      (made,
       Returned {| m_spReference := m_spReference tc;
                   m_spSolution := Some values;
                   m_gridname := m_gridname tc;
                   m_reference := m_reference tc |})
  end.

End Laplace.

(** How often a sequence of calls refines the grid. *)
Definition refinements (calls : list call) : nat :=
  List.length (filter call_is_refine calls).

(** The calls that carry the solver parameters: the smoother's damping, the
    cycle type, the smoothing steps and the convergence check. *)
Definition is_solver_parameter (c : call) : bool :=
  match c with
  | Jacobi_new _ | set_cycle_type _ | set_num_presmooth _
  | set_num_postsmooth _ | StdConvCheck_new _ _ _ _ => true
  | _ => false
  end.

(** ** Reference files as text

    [write_reference] and [read_reference] go through C++ streams.  What a
    stream writes for a double and what it extracts from text belong to the
    C++ library, so both are parameters here. *)

(** The text files on disk: a name gives the content, if the file exists. *)
Definition disk : Type := string -> option string.

Section Streams.

(** [operator<<] of a double: the text it writes. *)
Variable show : value -> string.

(** [operator>>] of a double, given the text still to read: it fails, or
    gives a value and the text left. *)
Variable extract : string -> option (value * string).

(** Whether a file of this name can be opened for writing. *)
Variable can_open : string -> bool.

(** [std::vector<double>(start, end)] over [std::istream_iterator<double>]:
    extraction repeated until it fails.  Every extraction that succeeds
    takes a character or more, so the fuel [read_file] gives suffices. *)
Fixpoint extract_all (fuel : nat) (content : string) : list value :=
  match fuel with
  | O => []
  | S fuel' =>
      match extract content with
      | None => []
      | Some (v, rest) => v :: extract_all fuel' rest
      end
  end.

Definition read_file (content : string) : list value :=
  extract_all (S (String.length content)) content.

(** The doubles of every file, as [read_reference] finds them: none when
    [std::ifstream] cannot open the file. *)
Definition parsed (d : disk) : files :=
  fun name =>
    match d name with
    | Some content => read_file content
    | None => []
    end.

(** [std::copy] to [std::ostream_iterator<double>(output_file, "\n")]:
    every value followed by a newline. *)
Fixpoint written (vec : list value) : string :=
  match vec with
  | [] => ""
  | v :: rest => (show v ++ endl ++ written rest)%string
  end.

(** [void write_reference(std::vector<double> &vec)]: the disk afterwards.
    [std::ofstream output_file(m_reference)] replaces the file; when it
    cannot be opened nothing is written and nothing is reported. *)
Definition write_reference (d : disk) (tc : Testcase) (vec : list value)
  : disk :=
  if can_open (m_reference tc) then
    fun name =>
      if String.eqb name (m_reference tc) then Some (written vec) else d name
  else d.

(** What the library's pair of operators does to a value [v] that is written
    and read back: the text of [v], followed by a newline, is extracted as
    [back v], up to the newline. *)
Definition reads_back (back : value -> value) (v : value) : Prop :=
  forall rest : string,
    extract (show v ++ endl ++ rest)%string
    = Some (back v, (endl ++ rest)%string).

(** The text of [v] is not extracted as a double (as "nan" and "inf"). *)
Definition unreadable (v : value) : Prop :=
  forall rest : string, extract (show v ++ endl ++ rest)%string = None.

(** Reading stops in front of the first value that cannot be read, or at
    the end of the file. *)
Definition stops_reading (post : list value) : Prop :=
  match post with
  | [] => True
  | v :: _ => unreadable v
  end.

(** Extraction skips a newline before the number and fails at the end of
    the file. *)
Definition skips_newline : Prop :=
  forall text : string, extract (endl ++ text)%string = extract text.
Definition fails_at_end : Prop := extract "" = None.

End Streams.

(** A stream library cut down to the two numbers 0 and 1, each written as
    one digit, and a NaN that is written but not read. *)
Definition digit_show (v : value) : string :=
  match v with S754_zero _ => "0" | S754_nan => "nan" | _ => "1" end.
Fixpoint digit_extract (text : string) : option (value * string) :=
  match text with
  | EmptyString => None
  | String ch rest =>
      if Ascii.eqb ch (Ascii.ascii_of_nat 10) then digit_extract rest
      else if Ascii.eqb ch "0"%char then Some (zero, rest)
      else if Ascii.eqb ch "1"%char then Some (@of_int double 1, rest)
      else None
  end.

(** ** regression_tests.cpp *)

(** What the test does, in order: the initialisation of the parallel
    environment, the framework calls of [run], the steps of [compare]. *)
Inductive test_event : Type :=
| pcl_Init
| Framework (c : call)
| Compared (e : event).

Definition grid : string :=
  "../plugins/UG4Tests/regression_tests/grids/laplace_sphere_3d.ugx".
Definition reference : string :=
  "../plugins/UG4Tests/regression_tests/references/laplace.txt".

(** [TEST(Laplace, RegressionTests)]: what it does and the value it hands
    to [EXPECT_TRUE], or the exception that ends it.  [UG_PARALLEL] is the
    build flag, [fw] the framework, [values] what its solver leaves in
    [get_values]. *)
Definition TEST_Laplace_RegressionTests
  (UG_PARALLEL : bool) (fw : framework) (values : list value) (fs : files)
  : list test_event * outcome bool :=
  let init := if UG_PARALLEL then [pcl_Init] else [] in
  let Testcase := Testcase_new grid reference in
  let (calls, ran) := Laplace.run fw values Testcase in
  match ran with
  | Returned Testcase =>
      let (steps, result) := compare fs Testcase in
      (init ++ map Framework calls ++ map Compared steps, result)
  | Thrown msg => (init ++ map Framework calls, Thrown msg)
  | OutOfBounds => (init ++ map Framework calls, OutOfBounds)
  | NullPointer => (init ++ map Framework calls, NullPointer)
  end.

End RegressionTests.

Import RegressionTests.

(* ================================================================== *)
(** * The vector functions of unit_tests/vector_tests.cpp *)

Module VectorTests.

(** [static const int dim = 3]. *)
Definition dim : nat := 3%nat.

(** [MathVector<dim, ValueType>]: the components, in order. *)
Definition VectorType : Type := list value.

(** [v[i]]. *)
Definition get (v : VectorType) (i : nat) : value := nth i v zero.

(** A vector given component by component, as the loops
    [for (i = 0; i < dim; ++i) vOut[i] = ...] build it. *)
Definition componentwise (f : nat -> value) : VectorType :=
  map f (seq 0 dim).

(** [c = 0]: every component is set to the scalar. *)
Definition assign (x : value) : VectorType := componentwise (fun _ => x).

(** gtest's [EXPECT_EQ] on two numbers: C++ [==]. *)
Definition EXPECT_EQ (x y : value) : bool := eqb x y.

Section Functions.
Context {T : ValueType}.

(** [v1[i] + v2[i] + ... + vk[i]], associated to the left as C++ does. *)
Definition sum_at (i : nat) (v1 : VectorType) (vs : list VectorType)
  : value :=
  fold_left (fun acc v => add acc (get v i)) vs (get v1 i).

(** [s1 * v1[i] + ... + sk * vk[i]], associated to the left. *)
Definition weighted_sum_at (i : nat) (t1 : value * VectorType)
           (ts : list (value * VectorType)) : value :=
  fold_left (fun acc t => add acc (mul (fst t) (get (snd t) i))) ts
            (mul (fst t1) (get (snd t1) i)).

(** Modelled from the spec: [VecAppend(vOut, v1, ..., vk)] is a function
    of the UG4 framework (common/math) whose body is not among the
    sources; the spec gives it "append semantics: result becomes prior
    value plus added terms", that is [vOut[i] += v1[i] + ... + vk[i]].
    The result is the new [vOut]. *)
Definition VecAppend (vOut v1 : VectorType) (vs : list VectorType)
  : VectorType :=
  componentwise (fun i => add (get vOut i) (sum_at i v1 vs)).

(** Modelled from the spec: [VecScaleAppend(vOut, s1, v1, ..., sk, vk)],
    body not among the sources; "weighted accumulation (scale-and-add
    with arbitrary per-term scalar weights)", that is
    [vOut[i] += s1 * v1[i] + ... + sk * vk[i]]. *)
Definition VecScaleAppend (vOut : VectorType) (t1 : value * VectorType)
           (ts : list (value * VectorType)) : VectorType :=
  componentwise (fun i => add (get vOut i) (weighted_sum_at i t1 ts)).

(** Modelled from the spec: [VecAdd(vOut, v1, v2, ..., vk)], body not
    among the sources; "plain addition of two-to-four operands":
    [vOut[i] = v1[i] + v2[i] + ... + vk[i]]. *)
Definition VecAdd (v1 v2 : VectorType) (vs : list VectorType)
  : VectorType :=
  componentwise (fun i => sum_at i v1 (v2 :: vs)).

(** Modelled from the spec: [VecSubtract(vOut, v1, v2)], body not among
    the sources; "plain subtraction": [vOut[i] = v1[i] - v2[i]]. *)
Definition VecSubtract (v1 v2 : VectorType) : VectorType :=
  componentwise (fun i => sub (get v1 i) (get v2 i)).

(** [std::pow] at the element type.  The C++ library's function is
    outside the repository and IEEE 754 leaves its rounding open, so it
    is a parameter. *)
Variable pow : value -> value -> value.


End Functions.

(** [using TestTypes = ::testing::Types<float, double>]. *)
Definition TestTypes : list ValueType := [float; double].

(** What [urand(0, 10)] can draw, and more: a number that is not negative
    (not NaN, no sign bit). *)
Definition nonneg (x : value) : bool :=
  match x with
  | S754_nan => false
  | S754_zero s | S754_infinity s | S754_finite s _ _ => negb s
  end.

(** A zero or a finite number. *)
Definition finite (x : value) : bool :=
  match x with
  | S754_zero _ | S754_finite _ _ _ => true
  | _ => false
  end.

(** The checks of a loop [for (int i = 0; i < this->dim; ++i) ...]. *)
Definition for_dim (checks : nat -> list bool) : list bool :=
  flat_map checks (seq 0 dim).

Section Tests.
Context {T : ValueType}.

(** Modelled from the spec: [VecCopy(vTarget, vSource, fill)], body not
    among the sources; between vectors of one dimension it keeps the value
    the test calls [acopy], the spec [a_old]. *)
Definition VecCopy (vSource : VectorType) (fill : value) : VectorType :=
  componentwise (fun i => get vSource i).

(** [TYPED_TEST(VectorTests, VecAppend)]: the outcomes of its [EXPECT_EQ]s,
    in order, for the [a] and [b] that [reset] drew. *)
Definition test_VecAppend (a b : VectorType) : list bool :=
  let c := assign (of_int 0) in
  let d := assign (of_int 0) in
  let e := assign (of_int 0) in
  let acopy := VecCopy a (of_int 0) in
  let a := VecAppend a b [] in
  for_dim (fun i => [EXPECT_EQ (get a i) (add (get acopy i) (get b i))])
  ++
  let c := VecAppend c a [b] in
  let d := VecAppend d a [b; c] in
  let e := VecAppend e a [b; c; d] in
  for_dim (fun i =>
    [EXPECT_EQ (get c i) (add (get a i) (get b i));
     EXPECT_EQ (get d i) (add (add (get a i) (get b i)) (get c i));
     EXPECT_EQ (get e i)
               (add (add (add (get a i) (get b i)) (get c i)) (get d i))]).

(** [TYPED_TEST(VectorTests, VecScaleAppend)]. *)
Definition test_VecScaleAppend (a b : VectorType) : list bool :=
  let c := assign (of_int 0) in
  let d := assign (of_int 0) in
  let e := assign (of_int 0) in
  let c := VecScaleAppend c (of_int 2, b) [] in
  for_dim (fun i => [EXPECT_EQ (get c i) (mul (of_int 2) (get b i))])
  ++
  let c := assign (of_int 0) in
  let c := VecScaleAppend c (of_int 2, a) [(of_int 3, b)] in
  let d := VecScaleAppend d (of_int 2, a) [(of_int 3, b); (of_int 4, c)] in
  let e := VecScaleAppend e (of_int 2, a)
                          [(of_int 3, b); (of_int 4, c); (of_int 5, d)] in
  for_dim (fun i =>
    [EXPECT_EQ (get c i)
               (add (mul (of_int 2) (get a i)) (mul (of_int 3) (get b i)));
     EXPECT_EQ (get d i)
               (add (add (mul (of_int 2) (get a i)) (mul (of_int 3) (get b i)))
                    (mul (of_int 4) (get c i)));
     EXPECT_EQ (get e i)
               (add (add (add (mul (of_int 2) (get a i))
                              (mul (of_int 3) (get b i)))
                         (mul (of_int 4) (get c i)))
                    (mul (of_int 5) (get d i)))]).

(** [TYPED_TEST(VectorTests, VecAdd)]. *)
Definition test_VecAdd (a b : VectorType) : list bool :=
  let c := VecAdd a b [] in
  let d := VecAdd a b [c] in
  let e := VecAdd a b [c; d] in
  for_dim (fun i =>
    [EXPECT_EQ (get c i) (add (get a i) (get b i));
     EXPECT_EQ (get d i) (add (add (get a i) (get b i)) (get c i));
     EXPECT_EQ (get e i)
               (add (add (add (get a i) (get b i)) (get c i)) (get d i))]).

(** [TYPED_TEST(VectorTests, VecSub)]. *)
Definition test_VecSub (a b : VectorType) : list bool :=
  let c := VecSubtract a b in
  for_dim (fun i => [EXPECT_EQ (get c i) (sub (get a i) (get b i))]).

End Tests.

(** The members [a, b, c, d, e] of the fixture. *)
Module Fixture.
Record t : Type := { a : VectorType; b : VectorType; c : VectorType;
                     d : VectorType; e : VectorType }.
End Fixture.

Section Typed.
Context {T : ValueType}.

(** [urand(0, 10)] is the framework's; [urand k] stands for the number its
    [k]-th call in the process returns. *)
Variable urand : nat -> value.

(** [void reset()], when [n] numbers have been drawn before: the fixture it
    leaves and the count of numbers drawn then.  The loop draws [a[i]] and
    [b[i]] in turn. *)
Definition reset (n : nat) : Fixture.t * nat :=
  ({| Fixture.a := componentwise (fun i => urand (n + 2 * i));
      Fixture.b := componentwise (fun i => urand (n + 2 * i + 1));
      Fixture.c := assign (of_int 0);
      Fixture.d := assign (of_int 0);
      Fixture.e := assign (of_int 0) |},
   (n + 2 * dim)%nat).

(** [VectorTests() { reset(); }]. *)
Definition VectorTests_new (n : nat) : Fixture.t * nat := reset n.

(** A typed test on a fresh fixture, when [drawn] numbers have been drawn
    before it: the constructor resets, the test body resets again and then
    checks; [c], [d] and [e] are zero at that point, as the test bodies
    above take them. *)
Definition TYPED_TEST (drawn : nat)
  (body : VectorType -> VectorType -> list bool) : list bool :=
  let (_, n) := VectorTests_new drawn in
  let (this, _) := reset n in
  body (Fixture.a this) (Fixture.b this).

End Typed.

(** ** The [VecPow] test *)





(** A sequence of draws within [0, 10]. *)
Definition sample_urand {T : ValueType} (k : nat) : value :=
  of_int (Z.of_nat k mod 11).

End VectorTests.

Import VectorTests.

(* ================================================================== *)
(** * Properties of the tolerance test *)

Lemma tolerance_bits : tolerance = S754_finite false 4722366482869645 (-72).
Proof. vm_compute. reflexivity. Qed.

(** [0.000001] is a valid double, and no double is nearer to 10^-6: the
    literal lies within half a unit in the last place (2^-73) of it. *)
Lemma tolerance_nearest :
  @valid double tolerance = true /\
  to_Q tolerance = Some tolerance_value /\
  ((1 # 1000000) - (1 # 2 ^ 73) <= tolerance_value)%Q /\
  (tolerance_value < 1 # 1000000)%Q.
Proof.
  repeat split; try (vm_compute; reflexivity).
  apply Qle_bool_iff. vm_compute. reflexivity.
Qed.

Lemma isEqual_true_iff (a b : value) :
  isEqual a b = true <-> differ_by_less_than_tolerance a b.
Proof.
  unfold isEqual, differ_by_less_than_tolerance, ltb, SFltb.
  rewrite tolerance_bits.
  destruct (SFcompare _ _) as [[ | | ] | ]; split; congruence.
Qed.

Lemma isEqual_false_iff (a b : value) :
  isEqual a b = false <-> ~ differ_by_less_than_tolerance a b.
Proof.
  rewrite <- isEqual_true_iff. destruct (isEqual a b); split; congruence.
Qed.

(** Off the tolerance, the difference is at least the tolerance or is not a
    number (a NaN operand, or two infinities of the same sign). *)
Lemma not_less_iff (a b : value) :
  ~ differ_by_less_than_tolerance a b <->
  differ_by_tolerance_or_more a b \/ is_nan (@sub double a b) = true.
Proof.
  unfold differ_by_less_than_tolerance, differ_by_tolerance_or_more, leb, SFleb.
  destruct (@sub double a b) as [s | s | | s m e];
    cbn [abs SFabs is_nan SFcompare].
  - split; [ intros H; now elim H | intros [H | H]; discriminate ].
  - split; [ now left | discriminate ].
  - split; [ now right | discriminate ].
  - assert (Hp : forall p q, Pos.compare_cont Eq q p
                             = CompOpp (Pos.compare_cont Eq p q))
      by (intros; now rewrite Pos.compare_cont_antisym).
    rewrite (Z.compare_antisym e (-72)), (Hp m).
    destruct (e ?= -72); cbn [CompOpp];
      try destruct (Pos.compare_cont Eq m _); cbn [CompOpp];
      (split; [ intros H; try (now left); now elim H
              | intros [H | H]; congruence ]).
Qed.

(** ** The test compares numbers

    On a valid double the comparison with the tolerance is the comparison of
    the exact values. *)

Lemma digits2_pos_bounds (m : positive) :
  2 ^ (Zpos (digits2_pos m) - 1) <= Zpos m < 2 ^ Zpos (digits2_pos m).
Proof.
  induction m as [p IH | p IH | ]; cbn [digits2_pos];
    [ | | cbn; lia ];
    rewrite Pos2Z.inj_succ, Z.pow_succ_r by lia;
    replace (Z.succ (Zpos (digits2_pos p)) - 1)
      with (Z.succ (Zpos (digits2_pos p) - 1)) by lia;
    rewrite Z.pow_succ_r by lia; lia.
Qed.

(** A canonical mantissa of a double is below 2^53, and at least 2^52 unless
    the number is subnormal. *)
Lemma canonical_bounds (m : positive) (e : Z) :
  canonical_mantissa 53 1024 m e = true ->
  Zpos m < 9007199254740992 /\ (-1074 < e -> 4503599627370496 <= Zpos m).
Proof.
  unfold canonical_mantissa, fexp, emin. intros H. apply Z.eqb_eq in H.
  assert (B := digits2_pos_bounds m).
  assert (Hd : Zpos (digits2_pos m) <= 53) by lia.
  split.
  - apply Z.lt_le_trans with (2 ^ Zpos (digits2_pos m)); [ apply B | ].
    apply (Z.pow_le_mono_r 2 _ 53); lia.
  - intros He. assert (E : Zpos (digits2_pos m) = 53) by lia.
    rewrite E in B. apply B.
Qed.

Lemma pow2_pos_ge (p : positive) (k n : Z) :
  2 ^ k = n -> 0 <= k <= Zpos p -> n <= Zpos (2 ^ p).
Proof.
  intros <- H. rewrite Pos2Z.inj_pow. apply Z.pow_le_mono_r; lia.
Qed.

Lemma pow2_pos_le (p : positive) (k n : Z) :
  2 ^ k = n -> Zpos p <= k -> Zpos (2 ^ p) <= n.
Proof.
  intros <- H. rewrite Pos2Z.inj_pow. apply Z.pow_le_mono_r; lia.
Qed.

Lemma pow2_72 : Zpos (2 ^ 72) = 4722366482869645213696.
Proof. vm_compute. reflexivity. Qed.

Lemma compare_tolerance_value (m : positive) (e : Z) :
  Zpos m < 9007199254740992 ->
  (-1074 < e -> 4503599627370496 <= Zpos m) ->
  SFcompare (S754_finite false m e) (S754_finite false 4722366482869645 (-72))
  = Some Lt
  <-> (magnitude m e < tolerance_value)%Q.
Proof.
  intros Hlt Hge. unfold Qlt, tolerance_value. cbn [SFcompare].
  destruct (Z.compare_spec e (-72)) as [-> | He | He].
  - unfold magnitude, Qnum, Qden.
    rewrite Pos.compare_cont_spec, pow2_72. cbn [Pos.switch_Eq].
    destruct (Pos.compare_spec m 4722366482869645) as [Hm | Hm | Hm].
    + subst m. split; [ discriminate | ].
      intros H'; exfalso; revert H'; apply Z.lt_irrefl.
    + apply Pos2Z.pos_lt_pos in Hm. split; [ intros _; lia | reflexivity ].
    + apply Pos2Z.pos_lt_pos in Hm. split; [ discriminate | lia ].
  - destruct e as [ | p | p]; try lia.
    unfold magnitude, Qnum, Qden.
    split; [ intros _ | reflexivity ].
    assert (9444732965739290427392 <= Zpos (2 ^ p))
      by (apply (pow2_pos_ge p 73); [ vm_compute; reflexivity | lia ]).
    nia.
  - specialize (Hge ltac:(lia)).
    split; [ discriminate | intros H'; exfalso ].
    destruct e as [ | p | p]; unfold magnitude, inject_Z, Qnum, Qden in H'.
    + rewrite Z.pow_0_r in H'. lia.
    + assert (0 < 2 ^ Zpos p) by (apply Z.pow_pos_nonneg; lia). nia.
    + assert (Zpos (2 ^ p) <= 2361183241434822606848)
        by (apply (pow2_pos_le p 71); [ vm_compute; reflexivity | lia ]).
      nia.
Qed.

(** [isEqual] holds exactly when the computed difference, a number, is
    smaller in absolute value than the number [0.000001] denotes. *)
Lemma isEqual_value (a b : value) (q : Q) :
  @valid double (@sub double a b) = true ->
  to_Q (abs (@sub double a b)) = Some q ->
  isEqual a b = true <-> (q < tolerance_value)%Q.
Proof.
  rewrite isEqual_true_iff. unfold differ_by_less_than_tolerance, valid.
  destruct (@sub double a b) as [s | s | | s m e]; intros Hv Hq;
    try discriminate.
  - assert (q = 0%Q) as -> by (cbn in Hq; congruence).
    split; reflexivity.
  - assert (E : q = magnitude m e) by (cbn [abs SFabs to_Q] in Hq; congruence).
    rewrite E. apply andb_prop in Hv as [Hc _].
    apply canonical_bounds in Hc as [Hlt Hge].
    now apply compare_tolerance_value.
Qed.

(* ================================================================== *)
(** * The loop of [compare] *)

Section CompareLoop.
Variables solution reference : list value.

Local Abbreviation equal_at := (RegressionTests.equal_at solution reference).
Local Abbreviation mismatch_at :=
  (RegressionTests.mismatch_at solution reference).

Lemma equal_or_mismatch (i : nat) :
  (i < List.length solution)%nat -> (i < List.length reference)%nat ->
  equal_at i \/ mismatch_at i.
Proof.
  intros Hs Hr.
  apply nth_error_Some in Hs. apply nth_error_Some in Hr.
  destruct (nth_error solution i) as [a | ] eqn:Ea; [ | congruence ].
  destruct (nth_error reference i) as [b | ] eqn:Eb; [ | congruence ].
  destruct (isEqual a b) eqn:E; [ left | right ]; exists a, b; auto.
Qed.

Lemma equal_not_mismatch (i : nat) : equal_at i -> ~ mismatch_at i.
Proof.
  intros (a & b & Ha & Hb & E) (a' & b' & Ha' & Hb' & E'). congruence.
Qed.

(** Iterations that pass only add their reads; the loop goes on with the
    remaining indices. *)
Lemma compare_loop_app (passed rest : list nat) :
  (forall i, In i passed -> equal_at i) ->
  compare_loop solution reference (passed ++ rest)
  = (visits passed ++ fst (compare_loop solution reference rest),
     snd (compare_loop solution reference rest)).
Proof.
  induction passed as [ | i passed IH]; intros Hall.
  - cbn. now destruct (compare_loop solution reference rest).
  - destruct (Hall i (or_introl eq_refl)) as (a & b & Ha & Hb & E).
    cbn [app compare_loop]. rewrite Ha, Hb, E. cbn [negb].
    rewrite IH by (intros; apply Hall; now right).
    reflexivity.
Qed.

Lemma compare_loop_all_equal (indices : list nat) :
  (forall i, In i indices -> equal_at i) ->
  compare_loop solution reference indices = (visits indices, Returned true).
Proof.
  intros Hall.
  rewrite <- (app_nil_r indices) at 1.
  rewrite compare_loop_app by assumption.
  cbn. now rewrite app_nil_r.
Qed.

Lemma compare_loop_mismatch (passed rest : list nat) (j : nat) :
  (forall i, In i passed -> equal_at i) -> mismatch_at j ->
  compare_loop solution reference (passed ++ j :: rest)
  = (visits passed ++
       [ReadSolution j; ReadReference j;
        Print ("Not equal at " ++ show_size_t j ++ endl)%string],
     Returned false).
Proof.
  intros Hall (a & b & Ha & Hb & E).
  rewrite compare_loop_app by assumption.
  cbn [compare_loop]. now rewrite Ha, Hb, E.
Qed.

Lemma compare_loop_out_of_bounds (passed rest : list nat) (j : nat) :
  (forall i, In i passed -> equal_at i) ->
  (j < List.length solution)%nat -> (List.length reference <= j)%nat ->
  compare_loop solution reference (passed ++ j :: rest)
  = (visits passed ++ [ReadSolution j; ReadReference j], OutOfBounds).
Proof.
  intros Hall Hs Hr.
  rewrite compare_loop_app by assumption.
  apply nth_error_Some in Hs. apply nth_error_None in Hr.
  cbn [compare_loop].
  destruct (nth_error solution j); [ | congruence ].
  now rewrite Hr.
Qed.

(** The loop splits at any index of its range. *)
Lemma seq_split_at (n j : nat) :
  (j < n)%nat -> seq 0 n = seq 0 j ++ j :: seq (S j) (n - S j).
Proof.
  intros H.
  replace n with (j + S (n - S j))%nat at 1 by lia.
  rewrite seq_app. reflexivity.
Qed.

(** Below [n], either some pair fails the test or all pass. *)
Lemma mismatch_below_dec (n : nat) :
  (n <= List.length solution)%nat -> (n <= List.length reference)%nat ->
  (exists i, (i < n)%nat /\ mismatch_at i)
  \/ (forall i, (i < n)%nat -> equal_at i).
Proof.
  induction n as [ | n IH]; intros Hs Hr.
  - right; intros; lia.
  - destruct IH as [(i & Hi & Hm) | Hall]; try lia.
    + left; exists i; split; [ lia | assumption ].
    + destruct (equal_or_mismatch n) as [He | Hm]; try lia.
      * right; intros i Hi.
        destruct (Nat.eq_dec i n) as [-> | ]; [ assumption | ].
        apply Hall; lia.
      * left; exists n; split; [ lia | assumption ].
Qed.

(** Among the indices below [n], a mismatch has a first one. *)
Lemma first_mismatch (n : nat) :
  (n <= List.length solution)%nat -> (n <= List.length reference)%nat ->
  (exists i, (i < n)%nat /\ mismatch_at i) ->
  exists j, (j < n)%nat /\ mismatch_at j /\
            forall i, (i < j)%nat -> equal_at i.
Proof.
  induction n as [ | n IH]; intros Hs Hr (i & Hi & Hm); [ lia | ].
  destruct (mismatch_below_dec n) as [Hex | Hall]; try lia.
  - destruct IH as (j & Hj & Hmj & Hlt); try lia; auto.
    exists j; repeat split; auto.
  - assert (i = n) as ->.
    { destruct (Nat.eq_dec i n) as [ | Hne]; [ assumption | ].
      exfalso. apply (equal_not_mismatch i); [ apply Hall; lia | exact Hm ]. }
    exists n; repeat split; auto.
Qed.

End CompareLoop.

Lemma compare_unfold (fs : files) (tc : Testcase) (solution : list value) :
  m_spSolution tc = Some solution ->
  compare fs tc
  = compare_loop solution (fs (m_reference tc)) (seq 0 (List.length solution)).
Proof.
  intros H. unfold compare. cbn. now rewrite H.
Qed.

Lemma Forall2_nth_error {A B : Type} (R : A -> B -> Prop) (l1 : list A)
  (l2 : list B) :
  Forall2 R l1 l2 ->
  forall i a, nth_error l1 i = Some a ->
              exists b, nth_error l2 i = Some b /\ R a b.
Proof.
  induction 1 as [ | x y l1 l2 Hxy _ IH]; intros [ | i] a Ha; cbn in *;
    try discriminate.
  - injection Ha as <-. now exists y.
  - now apply IH.
Qed.

Lemma reads_solution_app (t u : list event) :
  reads_solution (t ++ u) = reads_solution t ++ reads_solution u.
Proof. apply flat_map_app. Qed.

Lemma reads_reference_app (t u : list event) :
  reads_reference (t ++ u) = reads_reference t ++ reads_reference u.
Proof. apply flat_map_app. Qed.

Lemma output_app (t u : list event) : output (t ++ u) = output t ++ output u.
Proof. apply flat_map_app. Qed.

Lemma visits_cons (i : nat) (indices : list nat) :
  visits (i :: indices) = [ReadSolution i; ReadReference i] ++ visits indices.
Proof. reflexivity. Qed.

Lemma output_visits (indices : list nat) : output (visits indices) = [].
Proof.
  induction indices as [ | i l IH]; [ reflexivity | ].
  now rewrite visits_cons, output_app, IH.
Qed.

Lemma reads_solution_visits (indices : list nat) :
  reads_solution (visits indices) = indices.
Proof.
  induction indices as [ | i l IH]; [ reflexivity | ].
  now rewrite visits_cons, reads_solution_app, IH.
Qed.

Lemma reads_reference_visits (indices : list nat) :
  reads_reference (visits indices) = indices.
Proof.
  induction indices as [ | i l IH]; [ reflexivity | ].
  now rewrite visits_cons, reads_reference_app, IH.
Qed.

(** The three ways the loop can end, with what it has done by then. *)
Lemma compare_loop_trichotomy (solution reference : list value) :
  let L := List.length solution in
  let R := List.length reference in
  (exists j, (j < L)%nat /\ (j < R)%nat /\ mismatch_at solution reference j /\
             (forall i, (i < j)%nat -> equal_at solution reference i) /\
             compare_loop solution reference (seq 0 L)
             = (visits (seq 0 j) ++
                  [ReadSolution j; ReadReference j;
                   Print ("Not equal at " ++ show_size_t j ++ endl)%string],
                Returned false))
  \/ ((L <= R)%nat /\
      (forall i, (i < L)%nat -> equal_at solution reference i) /\
      compare_loop solution reference (seq 0 L)
      = (visits (seq 0 L), Returned true))
  \/ ((R < L)%nat /\
      (forall i, (i < R)%nat -> equal_at solution reference i) /\
      compare_loop solution reference (seq 0 L)
      = (visits (seq 0 R) ++ [ReadSolution R; ReadReference R], OutOfBounds)).
Proof.
  intros L R.
  destruct (mismatch_below_dec solution reference (Nat.min L R))
    as [Hex | Hall]; try (subst L R; lia).
  - destruct (first_mismatch solution reference (Nat.min L R))
      as (j & Hj & Hm & Hbefore); try (subst L R; lia); auto.
    left. exists j. repeat split; auto; try lia.
    rewrite (seq_split_at L j) by lia.
    apply compare_loop_mismatch; auto.
    intros i Hi. apply in_seq in Hi. apply Hbefore. lia.
  - right. destruct (Nat.le_gt_cases L R) as [Hle | Hgt].
    + left. rewrite Nat.min_l in Hall by assumption.
      repeat split; auto.
      apply compare_loop_all_equal.
      intros i Hi. apply in_seq in Hi. apply Hall. lia.
    + right. rewrite Nat.min_r in Hall by lia.
      repeat split; auto.
      rewrite (seq_split_at L R) by lia.
      apply compare_loop_out_of_bounds; auto.
      intros i Hi. apply in_seq in Hi. apply Hall. lia.
Qed.

(** [compare] reads both vectors at the same indices, a prefix of the
    solution's. *)
Lemma compare_loop_reads (solution reference : list value) :
  let run := compare_loop solution reference (seq 0 (List.length solution)) in
  exists n, (n <= List.length solution)%nat /\
            reads_solution (fst run) = seq 0 n /\
            reads_reference (fst run) = seq 0 n /\
            (snd run = Returned true -> n = List.length solution) /\
            (snd run <> OutOfBounds -> (n <= List.length reference)%nat).
Proof.
  cbn zeta.
  destruct (compare_loop_trichotomy solution reference)
    as [(j & HjL & HjR & _ & _ & E) | [(Hle & _ & E) | (Hlt & _ & E)]];
    rewrite E; cbn [fst snd].
  - exists (S j). rewrite reads_solution_app, reads_reference_app.
    rewrite reads_solution_visits, reads_reference_visits, seq_S.
    repeat split; auto; try lia. discriminate.
  - exists (List.length solution).
    rewrite reads_solution_visits, reads_reference_visits.
    repeat split; auto.
  - exists (S (List.length reference)).
    rewrite reads_solution_app, reads_reference_app.
    rewrite reads_solution_visits, reads_reference_visits, seq_S.
    repeat split; auto; try lia; try discriminate. congruence.
Qed.

(** The loop looks at the reference only at the indices it is given. *)
Lemma compare_loop_ext (solution ref1 ref2 : list value) (indices : list nat) :
  (forall i, In i indices -> nth_error ref1 i = nth_error ref2 i) ->
  compare_loop solution ref1 indices = compare_loop solution ref2 indices.
Proof.
  induction indices as [ | i rest IH]; intros H; [ reflexivity | ].
  cbn [compare_loop].
  rewrite (H i (or_introl eq_refl)), IH by (intros; apply H; now right).
  reflexivity.
Qed.

(* ================================================================== *)
(** * [Testcase::compare] against the reference *)

(** C1, as the claim states it, fails at the rounding of the difference.
    The two doubles below differ by less than the double [0.000001] (and so
    by less than 10^-6), by a quarter of a unit in its last place; their
    computed difference is rounded up to that double itself, so [isEqual] is
    false and [compare] returns false. *)
Lemma compare_false_below_tolerance :
  @valid double (S754_finite false 5848266389712269 (-72)) = true /\
  @valid double (S754_finite false 4503599627370497 (-74)) = true /\
  (exists qa qb,
      to_Q (S754_finite false 5848266389712269 (-72)) = Some qa /\
      to_Q (S754_finite false 4503599627370497 (-74)) = Some qb /\
      (0 < qa - qb)%Q /\ (qa - qb < tolerance_value)%Q /\
      (qa - qb < 1 # 1000000)%Q) /\
  @sub double (S754_finite false 5848266389712269 (-72))
              (S754_finite false 4503599627370497 (-74)) = tolerance /\
  isEqual (S754_finite false 5848266389712269 (-72))
          (S754_finite false 4503599627370497 (-74)) = false /\
  compare (reference_file [S754_finite false 4503599627370497 (-74)])
          (solved [S754_finite false 5848266389712269 (-72)])
  = ([ReadSolution 0; ReadReference 0;
      Print ("Not equal at 0" ++ endl)%string], Returned false).
Proof.
  split; [ vm_compute; reflexivity | ].
  split; [ vm_compute; reflexivity | ].
  split.
  { eexists; eexists.
    split; [ vm_compute; reflexivity | ].
    split; [ vm_compute; reflexivity | ].
    repeat split; vm_compute; reflexivity. }
  repeat split; vm_compute; reflexivity.
Qed.

(** C1, amended to the computed difference.  When the solution and the
    reference have the same length and, for every pair of corresponding
    elements, the difference as computed in double precision is less in
    absolute value than the double [0.000001], [compare] returns true,
    having read every pair and printed nothing.  [isEqual] is true exactly
    when the absolute value of the computed difference is below the
    literal, whatever the magnitude of the operands: as a comparison of
    doubles and, for a difference that is a valid finite double, as a
    comparison of the numbers themselves. *)
Theorem compare_true_within_tolerance
  (fs : files) (tc : Testcase) (solution : list value) :
  m_spSolution tc = Some solution ->
  Forall2 differ_by_less_than_tolerance solution (fs (m_reference tc)) ->
  compare fs tc = (visits (seq 0 (List.length solution)), Returned true)
  /\ output (fst (compare fs tc)) = []
  /\ (forall a b, isEqual a b = true <-> differ_by_less_than_tolerance a b)
  /\ (forall a b q,
         @valid double (@sub double a b) = true ->
         to_Q (abs (@sub double a b)) = Some q ->
         isEqual a b = true <-> (q < tolerance_value)%Q).
Proof.
  intros Hsol Hall.
  assert (E : compare fs tc
              = (visits (seq 0 (List.length solution)), Returned true)).
  { rewrite (compare_unfold fs tc solution Hsol).
    apply compare_loop_all_equal. intros i Hi.
    apply in_seq in Hi.
    destruct (nth_error solution i) as [a | ] eqn:Ea.
    - destruct (Forall2_nth_error _ _ _ Hall i a Ea) as (b & Eb & Hab).
      exists a, b. repeat split; auto. now apply isEqual_true_iff.
    - apply nth_error_None in Ea. lia. }
  split; [ exact E | split; [ | split ] ].
  - rewrite E. apply output_visits.
  - apply isEqual_true_iff.
  - apply isEqual_value.
Qed.

Lemma fails_tolerance_iff (a b : value) :
  fails_tolerance a b <-> isEqual a b = false.
Proof.
  unfold fails_tolerance. now rewrite <- not_less_iff, isEqual_false_iff.
Qed.

(** C2, as the claim states it, fails where a difference is not a number.
    The only pair that differs by 0.000001 or more is at index 1, and
    [compare] prints index 0, where the difference is NaN and so is not
    0.000001 or more. *)
Lemma compare_prints_nan_index :
  List.length [S754_nan; @of_int double 1]
  = List.length [zero; @of_int double 5] /\
  differ_by_tolerance_or_more (@of_int double 1) (@of_int double 5) /\
  ~ differ_by_tolerance_or_more S754_nan zero /\
  compare (reference_file [zero; @of_int double 5])
          (solved [S754_nan; @of_int double 1])
  = ([ReadSolution 0; ReadReference 0;
      Print ("Not equal at 0" ++ endl)%string], Returned false).
Proof.
  split; [ reflexivity | ].
  split; [ vm_compute; reflexivity | ].
  split; [ vm_compute; discriminate | vm_compute; reflexivity ].
Qed.

(** C2, amended.  When the solution and the reference have the same length
    and some pair fails the tolerance test, its computed difference being
    0.000001 or more in absolute value or not a number, [compare] returns
    false and prints "Not equal at j", where j is the lowest index at which
    such a pair occurs. *)
Theorem compare_false_lowest_failing_index
  (fs : files) (tc : Testcase) (solution : list value) :
  m_spSolution tc = Some solution ->
  List.length solution = List.length (fs (m_reference tc)) ->
  (exists i a b, nth_error solution i = Some a /\
                 nth_error (fs (m_reference tc)) i = Some b /\
                 fails_tolerance a b) ->
  exists j a b,
    nth_error solution j = Some a /\
    nth_error (fs (m_reference tc)) j = Some b /\
    fails_tolerance a b /\
    (forall i a' b', (i < j)%nat -> nth_error solution i = Some a' ->
                     nth_error (fs (m_reference tc)) i = Some b' ->
                     ~ fails_tolerance a' b') /\
    snd (compare fs tc) = Returned false /\
    output (fst (compare fs tc))
    = [("Not equal at " ++ show_size_t j ++ endl)%string].
Proof.
  intros Hsol Hlen (i & a & b & Ha & Hb & Hfail).
  set (ref := fs (m_reference tc)) in *.
  assert (Hi : (i < List.length solution)%nat)
    by (apply nth_error_Some; congruence).
  destruct (first_mismatch solution ref (List.length solution))
    as (j & Hj & (aj & bj & Haj & Hbj & Ej) & Hbefore); try lia.
  { exists i. split; [ exact Hi | ]. exists a, b. repeat split; auto.
    now apply fails_tolerance_iff. }
  assert (Hrun : compare fs tc
                 = (visits (seq 0 j) ++
                      [ReadSolution j; ReadReference j;
                       Print ("Not equal at " ++ show_size_t j
                                ++ endl)%string],
                    Returned false)).
  { rewrite (compare_unfold fs tc solution Hsol).
    rewrite (seq_split_at _ j Hj). apply compare_loop_mismatch.
    - intros k Hk. apply in_seq in Hk. apply Hbefore. lia.
    - exists aj, bj. auto. }
  exists j, aj, bj.
  split; [ exact Haj | ]. split; [ exact Hbj | ].
  split; [ now apply fails_tolerance_iff | ].
  split; [ | split ].
  - intros k a' b' Hk Ha' Hb' Hfail'.
    destruct (Hbefore k Hk) as (a'' & b'' & Ha'' & Hb'' & E).
    apply fails_tolerance_iff in Hfail'. congruence.
  - now rewrite Hrun.
  - rewrite Hrun. cbn [fst]. now rewrite output_app, output_visits.
Qed.

Lemma compare_true_within_tolerance_witness :
  let solution := [@of_int double 1; @of_int double 2] in
  let reference := [@literal double 10000001 7; @of_int double 2] in
  Forall2 differ_by_less_than_tolerance solution reference /\
  compare (reference_file reference) (solved solution)
  = (visits [0; 1]%nat, Returned true) /\
  (isEqual (@of_int double 1) (@literal double 10000001 7) = true
   <-> (7555786377003008 # 2 ^ 76 < tolerance_value)%Q).
Proof.
  cbn zeta.
  assert (H : Forall2 differ_by_less_than_tolerance
                [@of_int double 1; @of_int double 2]
                [@literal double 10000001 7; @of_int double 2])
    by (repeat constructor; vm_compute; reflexivity).
  split; [ exact H | ].
  pose (W := compare_true_within_tolerance
               (reference_file [@literal double 10000001 7;
                                @of_int double 2])
               (solved [@of_int double 1; @of_int double 2])
               _ eq_refl H).
  split; [ exact (proj1 W) | ].
  apply (proj2 (proj2 (proj2 W))); vm_compute; reflexivity.
Defined.

Lemma compare_false_lowest_failing_index_witness :
  exists j,
    snd (compare (reference_file [@of_int double 1; @of_int double 5;
                                  @of_int double 7])
                 (solved [@of_int double 1; @of_int double 2;
                          @of_int double 3])) = Returned false /\
    output (fst (compare (reference_file [@of_int double 1; @of_int double 5;
                                          @of_int double 7])
                         (solved [@of_int double 1; @of_int double 2;
                                  @of_int double 3])))
    = [("Not equal at " ++ show_size_t j ++ endl)%string].
Proof.
  destruct (compare_false_lowest_failing_index
              (reference_file [@of_int double 1; @of_int double 5;
                               @of_int double 7])
              (solved [@of_int double 1; @of_int double 2; @of_int double 3])
              _ eq_refl eq_refl)
    as (j & a & b & _ & _ & _ & _ & Hr & Ho).
  - exists 2%nat, (@of_int double 3), (@of_int double 7).
    split; [ reflexivity | ]. split; [ reflexivity | ].
    left. vm_compute. reflexivity.
  - exists j. split; assumption.
Defined.

(** C3, as the claim states it, fails: with a reference shorter than the
    solution, [compare] can return before any access is out of bounds, and
    then it has not read every index of the solution either.  Here the pair
    at index 0 already differs: [compare] returns false, and index 1, the one
    past the end of the reference, is never read. *)
Lemma compare_short_reference_returns :
  (List.length [@of_int double 5]
   < List.length [@of_int double 1; @of_int double 2])%nat /\
  compare (reference_file [@of_int double 5])
          (solved [@of_int double 1; @of_int double 2])
  = ([ReadSolution 0; ReadReference 0;
      Print ("Not equal at 0" ++ endl)%string], Returned false) /\
  snd (compare (reference_file [@of_int double 5])
               (solved [@of_int double 1; @of_int double 2])) <> OutOfBounds /\
  reads_solution (fst (compare (reference_file [@of_int double 5])
                               (solved [@of_int double 1; @of_int double 2])))
  <> seq 0 (List.length [@of_int double 1; @of_int double 2]).
Proof.
  split; [ cbn; lia | ].
  split; [ vm_compute; reflexivity | ].
  split; vm_compute; discriminate.
Qed.

(** C3, amended.  [compare] validates no length.  It reads the solution and
    the reference at the same indices 0 .. n-1, in order, and stops at the
    first pair that is not within tolerance: every pair before the last one
    read passes, n = len(solution) when it returns true, and the last pair
    read is the failing one when it returns false.  When the reference has
    at least as many entries as the solution, every access is in bounds and
    [compare] returns.  When the reference is shorter and each of its
    entries is within tolerance of the solution's, the read of the
    reference at index len(reference) is out of bounds. *)
Theorem compare_reads_and_bounds
  (fs : files) (tc : Testcase) (solution : list value) :
  m_spSolution tc = Some solution ->
  (exists n, (n <= List.length solution)%nat /\
             reads_solution (fst (compare fs tc)) = seq 0 n /\
             reads_reference (fst (compare fs tc)) = seq 0 n /\
             (forall i, (S i < n)%nat ->
                        equal_at solution (fs (m_reference tc)) i) /\
             (snd (compare fs tc) = Returned true ->
              n = List.length solution /\
              forall i, (i < n)%nat ->
                        equal_at solution (fs (m_reference tc)) i) /\
             (snd (compare fs tc) = Returned false ->
              exists j, n = S j /\
                        mismatch_at solution (fs (m_reference tc)) j) /\
             (snd (compare fs tc) = OutOfBounds ->
              n = S (List.length (fs (m_reference tc)))))
  /\ (forall j, mismatch_at solution (fs (m_reference tc)) j ->
                (forall i, (i < j)%nat ->
                           equal_at solution (fs (m_reference tc)) i) ->
                snd (compare fs tc) = Returned false /\
                reads_solution (fst (compare fs tc)) = seq 0 (S j) /\
                reads_reference (fst (compare fs tc)) = seq 0 (S j))
  /\ ((List.length solution <= List.length (fs (m_reference tc)))%nat ->
      (exists b, snd (compare fs tc) = Returned b) /\
      (forall i, In i (reads_solution (fst (compare fs tc))) ->
                 (i < List.length solution)%nat) /\
      (forall i, In i (reads_reference (fst (compare fs tc))) ->
                 (i < List.length (fs (m_reference tc)))%nat))
  /\ ((List.length (fs (m_reference tc)) < List.length solution)%nat ->
      (forall i, (i < List.length (fs (m_reference tc)))%nat ->
                 equal_at solution (fs (m_reference tc)) i) ->
      snd (compare fs tc) = OutOfBounds /\
      reads_reference (fst (compare fs tc))
      = seq 0 (S (List.length (fs (m_reference tc))))).
Proof.
  intros Hsol. rewrite (compare_unfold fs tc solution Hsol).
  set (ref := fs (m_reference tc)).
  assert (Hstop : forall j, mismatch_at solution ref j ->
                    (forall i, (i < j)%nat -> equal_at solution ref i) ->
                    compare_loop solution ref (seq 0 (List.length solution))
                    = (visits (seq 0 j) ++
                         [ReadSolution j; ReadReference j;
                          Print ("Not equal at " ++ show_size_t j
                                   ++ endl)%string],
                       Returned false)).
  { intros j Hm Hbefore.
    assert (Hj : (j < List.length solution)%nat).
    { destruct Hm as (a & b & Ha & _). apply nth_error_Some. congruence. }
    rewrite (seq_split_at _ j Hj). apply compare_loop_mismatch; auto.
    intros i Hi. apply in_seq in Hi. apply Hbefore. lia. }
  split; [ | split; [ | split ] ].
  - destruct (compare_loop_trichotomy solution ref)
      as [(j & HjL & HjR & Hm & Hb & E)
         | [(Hle & Hall & E) | (Hlt & Hall & E)]];
      rewrite E; cbn [fst snd];
      rewrite ?reads_solution_app, ?reads_reference_app,
        ?reads_solution_visits, ?reads_reference_visits.
    + exists (S j). rewrite seq_S.
      repeat split; auto; try lia; try discriminate.
      * intros i Hi. apply Hb. lia.
      * intros _. exists j. split; [ reflexivity | exact Hm ].
    + exists (List.length solution).
      repeat split; auto; try discriminate.
      intros i Hi. apply Hall. lia.
    + exists (S (List.length ref)). rewrite seq_S.
      repeat split; auto; try lia; try discriminate.
      intros i Hi. apply Hall. lia.
  - intros j Hm Hbefore. rewrite (Hstop j Hm Hbefore). cbn [fst snd].
    rewrite reads_solution_app, reads_reference_app,
      reads_solution_visits, reads_reference_visits, seq_S.
    repeat split.
  - intros Hle.
    destruct (compare_loop_reads solution ref)
      as (n & Hn & Hrs & Hrr & _ & Hin).
    destruct (compare_loop_trichotomy solution ref)
      as [(j & _ & _ & _ & _ & E) | [(_ & _ & E) | (Hlt & _ & _)]];
      [ | | lia ];
      rewrite E in *; cbn [fst snd] in *;
      (split; [ eexists; reflexivity | ]);
      rewrite Hrs, Hrr;
      (split; intros i Hi; apply in_seq in Hi;
       assert ((n <= List.length ref)%nat)
         by (apply Hin; discriminate); lia).
  - intros Hlt Hall.
    assert (Hsplit := seq_split_at (List.length solution)
                                   (List.length ref) Hlt).
    rewrite Hsplit, compare_loop_out_of_bounds; auto.
    + cbn [fst snd]. split; [ reflexivity | ].
      now rewrite reads_reference_app, reads_reference_visits, seq_S.
    + intros i Hi. apply in_seq in Hi. apply Hall. lia.
Qed.

Lemma compare_reads_and_bounds_witness :
  (exists n, (n <= 2)%nat /\
             reads_solution
               (fst (compare (reference_file [@of_int double 1])
                             (solved [@of_int double 1; @of_int double 2])))
             = seq 0 n) /\
  snd (compare (reference_file [@of_int double 1])
               (solved [@of_int double 1; @of_int double 2])) = OutOfBounds /\
  (exists b, snd (compare (reference_file [@of_int double 1; @of_int double 2;
                                           @of_int double 3])
                          (solved [@of_int double 1; @of_int double 2]))
             = Returned b) /\
  reads_solution
    (fst (compare (reference_file [@of_int double 5; @of_int double 2;
                                   @of_int double 3])
                  (solved [@of_int double 1; @of_int double 2;
                           @of_int double 3])))
  = [0%nat].
Proof.
  destruct (compare_reads_and_bounds
              (reference_file [@of_int double 1])
              (solved [@of_int double 1; @of_int double 2]) _ eq_refl)
    as ((n & Hn & Hrs & _) & _ & _ & Hshort).
  split; [ | split; [ | split ] ].
  - exists n. split; [ exact Hn | exact Hrs ].
  - apply Hshort.
    + cbn. lia.
    + intros i Hi. cbn in Hi.
      assert (i = 0%nat) as -> by lia.
      exists (@of_int double 1), (@of_int double 1).
      repeat split; vm_compute; reflexivity.
  - apply (proj1 (proj2 (proj2 (compare_reads_and_bounds
                           (reference_file [@of_int double 1; @of_int double 2;
                                            @of_int double 3])
                           (solved [@of_int double 1; @of_int double 2])
                           _ eq_refl)))).
    cbn. lia.
  - apply (proj1 (proj2 (compare_reads_and_bounds
                           (reference_file [@of_int double 5; @of_int double 2;
                                            @of_int double 3])
                           (solved [@of_int double 1; @of_int double 2;
                                    @of_int double 3])
                           _ eq_refl)) 0%nat).
    + exists (@of_int double 1), (@of_int double 5).
      repeat split; vm_compute; reflexivity.
    + intros i Hi. lia.
Defined.

(** C10. The outcome of [compare], and everything it reads and prints,
    depends on the reference only through its first len(solution) entries:
    two references that agree there give the same run (also when they are
    shorter than the solution).  With an empty solution [compare] returns
    true whatever the reference holds, and no entry of the reference at or
    beyond len(solution) is ever read. *)
Theorem compare_depends_on_prefix :
  (forall (fs1 fs2 : files) (tc : Testcase) (solution : list value),
      m_spSolution tc = Some solution ->
      firstn (List.length solution) (fs1 (m_reference tc))
      = firstn (List.length solution) (fs2 (m_reference tc)) ->
      compare fs1 tc = compare fs2 tc)
  /\ (forall (fs : files) (tc : Testcase),
         m_spSolution tc = Some [] ->
         compare fs tc = ([], Returned true))
  /\ (forall (fs : files) (tc : Testcase) (solution : list value),
         m_spSolution tc = Some solution ->
         forall i, In i (reads_reference (fst (compare fs tc))) ->
                   (i < List.length solution)%nat).
Proof.
  split; [ | split ].
  - intros fs1 fs2 tc solution Hsol Hpre.
    rewrite (compare_unfold fs1 tc solution Hsol),
            (compare_unfold fs2 tc solution Hsol).
    apply compare_loop_ext. intros i Hi. apply in_seq in Hi.
    assert (Hcut : forall l : list value,
               nth_error l i
               = nth_error (firstn (List.length solution) l) i).
    { intros l. rewrite nth_error_firstn.
      destruct (Nat.ltb_spec i (List.length solution)); [ reflexivity | lia ]. }
    now rewrite (Hcut (fs1 _)), (Hcut (fs2 _)), Hpre.
  - intros fs tc Hsol. now rewrite (compare_unfold fs tc [] Hsol).
  - intros fs tc solution Hsol i Hi.
    rewrite (compare_unfold fs tc solution Hsol) in Hi.
    destruct (compare_loop_reads solution (fs (m_reference tc)))
      as (n & Hn & _ & Hrr & _).
    rewrite Hrr in Hi. apply in_seq in Hi. lia.
Qed.

Lemma compare_depends_on_prefix_witness :
  compare (reference_file [@of_int double 1; @of_int double 5])
          (solved [@of_int double 1])
  = compare (reference_file [@of_int double 1; @of_int double 7;
                             @of_int double 9])
            (solved [@of_int double 1])
  /\ compare (reference_file [@of_int double 3]) (solved [])
     = ([], Returned true)
  /\ (0 < List.length [@of_int double 1])%nat.
Proof.
  split; [ | split ].
  - apply (proj1 compare_depends_on_prefix
                  (reference_file [@of_int double 1; @of_int double 5])
                  (reference_file [@of_int double 1; @of_int double 7;
                                   @of_int double 9])
                  (solved [@of_int double 1]) [@of_int double 1] eq_refl).
    reflexivity.
  - apply (proj1 (proj2 compare_depends_on_prefix)
                  (reference_file [@of_int double 3]) (solved [])).
    reflexivity.
  - apply (proj2 (proj2 compare_depends_on_prefix)
                  (reference_file [@of_int double 1; @of_int double 5])
                  (solved [@of_int double 1]) [@of_int double 1] eq_refl 0%nat).
    vm_compute. left. reflexivity.
Defined.

(* ================================================================== *)
(** * [Testcase::run], [Testcase::refine] and [Laplace::run] *)

(** C8. [run] of the base class throws "run() function of testcase not
    implemented." for every grid and reference name the test case was made
    with, and so never returns. *)
Theorem base_run_throws (grid reference : string) :
  run (Testcase_new grid reference)
  = Thrown "run() function of testcase not implemented."
  /\ forall tc, run (Testcase_new grid reference) <> Returned tc.
Proof.
  split; [ reflexivity | intros tc; discriminate ].
Qed.

Lemma int_wrap_small (z : Z) : INT_MIN <= z <= INT_MAX -> int_wrap z = z.
Proof.
  unfold INT_MIN, INT_MAX, int_wrap. intros H.
  rewrite Z.mod_small; lia.
Qed.

(** With fuel enough for the iterations left, the loop calls [refine] once
    for every [i] with [i < numRefs]. *)
Lemma refine_loop_repeat (fuel : nat) :
  forall i numRefs,
    0 <= i -> numRefs <= INT_MAX -> (Z.to_nat (numRefs - i) <= fuel)%nat ->
    refine_loop fuel i numRefs
    = repeat GlobalMultiGridRefiner_refine (Z.to_nat (numRefs - i)).
Proof.
  induction fuel as [ | fuel IH]; intros i numRefs Hi Hmax Hfuel.
  - replace (Z.to_nat (numRefs - i)) with 0%nat by lia. reflexivity.
  - cbn [refine_loop]. destruct (Z.ltb_spec i numRefs) as [Hlt | Hge].
    + rewrite int_wrap_small by (unfold INT_MIN, INT_MAX in *; lia).
      rewrite IH by lia.
      replace (Z.to_nat (numRefs - i))
        with (S (Z.to_nat (numRefs - (i + 1)))) by lia.
      reflexivity.
    + replace (Z.to_nat (numRefs - i)) with 0%nat by lia. reflexivity.
Qed.

Lemma filter_refine_repeat (n : nat) :
  filter call_is_refine (repeat GlobalMultiGridRefiner_refine n)
  = repeat GlobalMultiGridRefiner_refine n.
Proof. induction n as [ | n IH]; cbn; congruence. Qed.

(** The literals of the solver configuration, as doubles. *)
Lemma solver_literals :
  @literal double 66 2 = S754_finite false 5944751508129055 (-53)
  /\ @literal double 1 12 = S754_finite false 4951760157141521 (-92)
  /\ @literal double 1 6 = S754_finite false 4722366482869645 (-72).
Proof. repeat split; vm_compute; reflexivity. Qed.

(** C9. [refine(numRefs)] calls the refiner's [refine] exactly [numRefs]
    times, and not at all when [numRefs <= 0]; the count is set by the loop
    condition, for any fuel that suffices.  [Laplace::run] refines 4 times
    and passes the literals 0.66 (Jacobi damping), "V" (cycle type), 3 and 3
    (pre- and post-smoothing steps), 100 (iteration cap), 1e-12 (absolute
    tolerance) and 1e-6 (relative reduction). *)
Theorem refine_and_solver_parameters :
  (forall (numRefs : Z) (fuel : nat),
      INT_MIN <= numRefs <= INT_MAX -> (Z.to_nat numRefs <= fuel)%nat ->
      refine_loop fuel 0 numRefs
      = repeat GlobalMultiGridRefiner_refine (Z.to_nat numRefs))
  /\ (forall numRefs : Z,
         INT_MIN <= numRefs <= INT_MAX ->
         refinements (refine numRefs) = Z.to_nat numRefs /\
         (numRefs <= 0 -> refinements (refine numRefs) = 0%nat))
  /\ (forall tc : Testcase, refinements (Laplace.run_calls tc) = 4%nat)
  /\ (forall tc : Testcase,
         filter is_solver_parameter (Laplace.run_calls tc)
         = [Jacobi_new (@literal double 66 2);
            set_cycle_type "V";
            set_num_presmooth 3;
            set_num_postsmooth 3;
            StdConvCheck_new 100 (@literal double 1 12) (@literal double 1 6)
                             true]).
Proof.
  assert (Hloop : forall (numRefs : Z) (fuel : nat),
             INT_MIN <= numRefs <= INT_MAX -> (Z.to_nat numRefs <= fuel)%nat ->
             refine_loop fuel 0 numRefs
             = repeat GlobalMultiGridRefiner_refine (Z.to_nat numRefs)).
  { intros numRefs fuel [_ Hmax] Hfuel.
    rewrite refine_loop_repeat; rewrite ?Z.sub_0_r; auto; lia. }
  assert (Hcount : forall numRefs : Z,
             INT_MIN <= numRefs <= INT_MAX ->
             refinements (refine numRefs) = Z.to_nat numRefs).
  { intros numRefs Hrange. unfold refinements, refine.
    rewrite Hloop by (auto; lia). cbn [filter call_is_refine].
    now rewrite filter_refine_repeat, repeat_length. }
  split; [ exact Hloop | split; [ | split ] ].
  - intros numRefs Hrange. split; [ now apply Hcount | ].
    intros Hle. rewrite Hcount by assumption. lia.
  - intros tc. reflexivity.
  - intros tc. reflexivity.
Qed.

Lemma refine_and_solver_parameters_witness :
  refine_loop 10 0 4 = repeat GlobalMultiGridRefiner_refine 4
  /\ refinements (refine 4) = 4%nat
  /\ refinements (refine (-3)) = 0%nat.
Proof.
  split; [ | split ].
  - apply (proj1 refine_and_solver_parameters 4 10%nat).
    + unfold INT_MIN, INT_MAX. lia.
    + cbn. lia.
  - apply (proj1 (proj2 refine_and_solver_parameters) 4).
    unfold INT_MIN, INT_MAX. lia.
  - apply (proj2 (proj1 (proj2 refine_and_solver_parameters) (-3)
                          ltac:(unfold INT_MIN, INT_MAX; lia))).
    lia.
Defined.

(* ================================================================== *)
(** * The vector functions, component by component *)

Lemma get_componentwise (f : nat -> value) (i : nat) :
  (i < dim)%nat -> get (componentwise f) i = f i.
Proof.
  unfold get, componentwise. intros Hi.
  rewrite (nth_indep _ zero (f 0%nat)) by (now rewrite length_map, length_seq).
  rewrite map_nth, seq_nth by assumption. reflexivity.
Qed.

Lemma get_assign (x : value) (i : nat) :
  (i < dim)%nat -> get (assign x) i = x.
Proof. intros Hi. unfold assign. now rewrite get_componentwise. Qed.

(** Adding to [+0] gives the number added; only the sign of a zero can
    change, [+0 + -0] being [+0]. *)
Lemma add_zero_l {T : ValueType} (x : value) : same_number (add zero x) x.
Proof.
  destruct x as [[ | ] | [ | ] | | s m e]; cbn;
    solve [ now left | right; now split ].
Qed.

Lemma add_zero_l_exact {T : ValueType} (x : value) :
  x <> neg_zero -> add zero x = x.
Proof.
  intros Hx.
  destruct (add_zero_l x) as [E | [_ E]]; [ exact E | contradiction ].
Qed.

(** Numbers that are the same compare equal under [==], NaN apart. *)
Lemma same_number_eqb (x y : value) :
  same_number x y -> is_nan y = false -> eqb x y = true.
Proof.
  intros [-> | [-> ->]] Hy; [ | reflexivity ].
  destruct y as [s | [ | ] | | [ | ] m e]; try reflexivity; try discriminate;
    unfold eqb, SFeqb; cbn [SFcompare];
    rewrite Z.compare_refl, Pos.compare_cont_refl; reflexivity.
Qed.

(** C4. After [VecAppend(a, b)] every component [a[i]] is [a_old[i] + b[i]];
    with two or three vectors appended, it is the old value plus their
    sum. *)
Theorem VecAppend_accumulates {T : ValueType}
  (a b c d : VectorType) (i : nat) :
  (i < dim)%nat ->
  get (VecAppend a b []) i = add (get a i) (get b i)
  /\ get (VecAppend a b [c]) i
     = add (get a i) (add (get b i) (get c i))
  /\ get (VecAppend a b [c; d]) i
     = add (get a i) (add (add (get b i) (get c i)) (get d i)).
Proof.
  intros Hi. unfold VecAppend.
  repeat split; now rewrite get_componentwise.
Qed.

Lemma VecAppend_accumulates_witness :
  get (@VecAppend double [of_int 1; of_int 2; of_int 3]
                  [of_int 4; of_int 5; of_int 6] []) 1
  = @of_int double 7.
Proof.
  rewrite (proj1 (@VecAppend_accumulates double
                    [of_int 1; of_int 2; of_int 3]
                    [of_int 4; of_int 5; of_int 6] [] [] 1%nat
                    ltac:(unfold dim; lia))).
  vm_compute. reflexivity.
Defined.

(** C5. On a destination set to zero, [VecScaleAppend] leaves in every
    component the weighted sum [s1 * v1[i] + ... + sk * vk[i]], for one to
    five terms: the same datum, but for a sum that is [-0], which is stored
    as [+0]. *)
Theorem VecScaleAppend_weighted_sum {T : ValueType}
  (s1 s2 s3 s4 s5 : value) (v1 v2 v3 v4 v5 : VectorType) (i : nat) :
  (i < dim)%nat ->
  let c := assign (of_int 0) in
  same_number (get (VecScaleAppend c (s1, v1) []) i)
              (mul s1 (get v1 i))
  /\ same_number (get (VecScaleAppend c (s1, v1) [(s2, v2)]) i)
                 (add (mul s1 (get v1 i)) (mul s2 (get v2 i)))
  /\ same_number (get (VecScaleAppend c (s1, v1) [(s2, v2); (s3, v3)]) i)
                 (add (add (mul s1 (get v1 i)) (mul s2 (get v2 i)))
                      (mul s3 (get v3 i)))
  /\ same_number
       (get (VecScaleAppend c (s1, v1) [(s2, v2); (s3, v3); (s4, v4)]) i)
       (add (add (add (mul s1 (get v1 i)) (mul s2 (get v2 i)))
                 (mul s3 (get v3 i)))
            (mul s4 (get v4 i)))
  /\ same_number
       (get (VecScaleAppend c (s1, v1)
                            [(s2, v2); (s3, v3); (s4, v4); (s5, v5)]) i)
       (add (add (add (add (mul s1 (get v1 i)) (mul s2 (get v2 i)))
                      (mul s3 (get v3 i)))
                 (mul s4 (get v4 i)))
            (mul s5 (get v5 i))).
Proof.
  intros Hi c. unfold VecScaleAppend.
  repeat split; rewrite get_componentwise by assumption;
    unfold c; rewrite get_assign by assumption; apply add_zero_l.
Qed.

Lemma VecScaleAppend_weighted_sum_witness :
  same_number
    (get (@VecScaleAppend double (assign (of_int 0))
            (of_int 2, [of_int 1; neg_zero; of_int 3])
            [(of_int 3, [of_int 4; zero; of_int 6])]) 1)
    (@add double (mul (of_int 2) neg_zero) (mul (of_int 3) zero)).
Proof.
  exact (proj1 (proj2 (@VecScaleAppend_weighted_sum double
                         (of_int 2) (of_int 3) zero zero zero
                         [of_int 1; neg_zero; of_int 3]
                         [of_int 4; zero; of_int 6] [] [] [] 1%nat
                         ltac:(unfold dim; lia)))).
Defined.

(** C7. [VecAdd] with two, three and four operands stores their sum in every
    component, and [VecSubtract] the difference. *)
Theorem VecAdd_VecSubtract_componentwise {T : ValueType}
  (a b c d : VectorType) (i : nat) :
  (i < dim)%nat ->
  get (VecAdd a b []) i = add (get a i) (get b i)
  /\ get (VecAdd a b [c]) i = add (add (get a i) (get b i)) (get c i)
  /\ get (VecAdd a b [c; d]) i
     = add (add (add (get a i) (get b i)) (get c i)) (get d i)
  /\ get (VecSubtract a b) i = sub (get a i) (get b i).
Proof.
  intros Hi. unfold VecAdd, VecSubtract.
  repeat split; now rewrite get_componentwise.
Qed.

Lemma VecAdd_VecSubtract_componentwise_witness :
  get (@VecSubtract float [of_int 1; of_int 2; of_int 3]
                    [of_int 4; of_int 5; of_int 7]) 2
  = @of_int float (-4).
Proof.
  rewrite (proj2 (proj2 (proj2 (@VecAdd_VecSubtract_componentwise float
                    [of_int 1; of_int 2; of_int 3]
                    [of_int 4; of_int 5; of_int 7] [] [] 2%nat
                    ltac:(unfold dim; lia))))).
  vm_compute. reflexivity.
Defined.

(* ================================================================== *)
(** * The unit tests pass on the numbers [reset] draws *)


Section Rounding.
Variables prec emax : Z.

Lemma shr_1_nonneg (mrs : shr_record) :
  0 <= shr_m mrs -> 0 <= shr_m (shr_1 mrs).
Proof.
  destruct mrs as [m r s]. cbn [shr_m].
  destruct m as [ | [p | p | ] | p]; cbn; lia.
Qed.

Lemma iter_shr_1_nonneg (p : positive) :
  forall mrs, 0 <= shr_m mrs -> 0 <= shr_m (iter_pos shr_1 p mrs).
Proof.
  induction p as [p IH | p IH | ]; intros mrs H; cbn [iter_pos].
  - apply IH, IH, shr_1_nonneg, H.
  - apply IH, IH, H.
  - apply shr_1_nonneg, H.
Qed.

Lemma shr_fexp_nonneg (m e : Z) (l : location) :
  0 <= m -> 0 <= shr_m (fst (shr_fexp prec emax m e l)).
Proof.
  intros H. unfold shr_fexp, shr.
  assert (H0 : 0 <= shr_m (shr_record_of_loc m l))
    by (destruct l as [ | [ | | ]]; exact H).
  destruct (fexp prec emax (Zdigits2 m + e) - e) as [ | p | p]; cbn [fst]; auto.
  now apply iter_shr_1_nonneg.
Qed.

Lemma round_nearest_even_nonneg (m : Z) (l : location) :
  0 <= m -> 0 <= round_nearest_even m l.
Proof.
  intros H. destruct l as [ | [ | | ]]; cbn; try lia.
  destruct (Z.even m); lia.
Qed.

(** Rounding a mantissa that is not negative gives a zero, a finite number
    or an infinity of the sign asked for. *)
Lemma binary_round_aux_sign (sx : bool) (mx ex : Z) (lx : location) :
  0 <= mx -> has_sign sx (binary_round_aux prec emax sx mx ex lx).
Proof.
  intros H. unfold binary_round_aux.
  assert (H1 := shr_fexp_nonneg mx ex lx H).
  destruct (shr_fexp prec emax mx ex lx) as [mrs' e']. cbn [fst] in H1.
  assert (H2 := shr_fexp_nonneg
                  (round_nearest_even (shr_m mrs') (loc_of_shr_record mrs'))
                  e' loc_Exact
                  (round_nearest_even_nonneg _ _ H1)).
  destruct (shr_fexp prec emax _ e' loc_Exact) as [mrs'' e''].
  cbn [fst] in H2.
  destruct (shr_m mrs'') as [ | m | m]; cbn; try lia; auto.
  destruct (e'' <=? emax - prec); reflexivity.
Qed.

Lemma binary_round_sign (sx : bool) (mx : positive) (ex : Z) :
  has_sign sx (binary_round prec emax sx mx ex).
Proof.
  unfold binary_round. destruct (shl_align mx ex _) as [mz ez].
  apply binary_round_aux_sign. lia.
Qed.

Lemma binary_normalize_not_nan (m e : Z) (szero : bool) :
  is_nan (binary_normalize prec emax m e szero) = false.
Proof.
  destruct m as [ | p | p]; cbn [binary_normalize]; [ reflexivity | | ].
  - assert (H := binary_round_sign false p e).
    destruct (binary_round prec emax false p e); auto; contradiction.
  - assert (H := binary_round_sign true p e).
    destruct (binary_round prec emax true p e); auto; contradiction.
Qed.

End Rounding.

Lemma has_sign_nonneg (x : value) : has_sign false x -> nonneg x = true.
Proof. destruct x as [s | s | | s m e]; cbn; intros H; now subst. Qed.

Lemma nonneg_not_nan (x : value) : nonneg x = true -> is_nan x = false.
Proof. destruct x; cbn; congruence. Qed.

Section Closure.
Context {T : ValueType}.

Lemma nonneg_add (x y : value) :
  nonneg x = true -> nonneg y = true -> nonneg (add x y) = true.
Proof.
  destruct x as [[ | ] | [ | ] | | [ | ] mx ex];
    destruct y as [[ | ] | [ | ] | | [ | ] my ey];
    cbn [nonneg negb]; intros Hx Hy; try discriminate; try reflexivity.
  unfold add. cbn [SFadd cond_Zopp].
  apply has_sign_nonneg.
  cbn [Z.add binary_normalize]. apply binary_round_sign.
Qed.

(** A weight that is finite and positive, such as 2, 3, 4 and 5. *)
Lemma nonneg_mul_weight (m : positive) (e : Z) (y : value) :
  nonneg y = true -> nonneg (mul (S754_finite false m e) y) = true.
Proof.
  destruct y as [[ | ] | [ | ] | | [ | ] my ey];
    cbn [nonneg negb]; intros Hy; try discriminate; try reflexivity.
  unfold mul. cbn [SFmul xorb].
  apply has_sign_nonneg, binary_round_aux_sign. lia.
Qed.

Lemma sub_finite_not_nan (x y : value) :
  finite x = true -> finite y = true -> is_nan (sub x y) = false.
Proof.
  destruct x as [[ | ] | [ | ] | | sx mx ex];
    destruct y as [[ | ] | [ | ] | | sy my ey];
    cbn [finite]; intros Hx Hy; try discriminate; try reflexivity.
  unfold sub. cbn [SFsub]. apply binary_normalize_not_nan.
Qed.

End Closure.

Lemma for_dim_all (checks : nat -> list bool) :
  (forall i, (i < dim)%nat -> Forall (eq true) (checks i)) ->
  Forall (eq true) (for_dim checks).
Proof.
  intros H. unfold for_dim. apply Forall_flat_map, Forall_forall.
  intros i Hi. apply in_seq in Hi. apply H. lia.
Qed.

Lemma EXPECT_EQ_same (x : value) : nonneg x = true -> true = EXPECT_EQ x x.
Proof.
  intros H. symmetry. apply same_number_eqb; [ now left | ].
  now apply nonneg_not_nan.
Qed.

Lemma EXPECT_EQ_add_zero {T : ValueType} (x : value) :
  nonneg x = true -> true = EXPECT_EQ (add zero x) x.
Proof.
  intros H. symmetry. apply same_number_eqb; [ apply add_zero_l | ].
  now apply nonneg_not_nan.
Qed.

(** The weights of the test are finite and positive in both element types. *)
Lemma nonneg_mul_of_int (T : ValueType) (k : Z) (y : value) :
  In T TestTypes -> In k [2; 3; 4; 5] ->
  nonneg y = true -> nonneg (mul (of_int k) y) = true.
Proof.
  intros HT Hk Hy.
  assert (W : exists m e, @of_int T k = S754_finite false m e).
  { destruct HT as [<- | [<- | []]];
      destruct Hk as [<- | [<- | [<- | [<- | []]]]];
      vm_compute; eauto. }
  destruct W as (m & e & ->). now apply nonneg_mul_weight.
Qed.

Create HintDb nonneg.
#[local] Hint Resolve nonneg_add : nonneg.
#[local] Hint Extern 2 (nonneg (mul (of_int _) _) = true) =>
  apply nonneg_mul_of_int; [ assumption | cbn; tauto | ] : nonneg.

Ltac unfold_vectors i Hi :=
  unfold VecAppend, VecScaleAppend, VecAdd, VecSubtract, VecCopy, assign;
  cbn [sum_at weighted_sum_at fold_left fst snd];
  repeat (match goal with
          | |- context [get (componentwise ?f) i] =>
              rewrite (get_componentwise f i Hi)
          end; cbn [sum_at weighted_sum_at fold_left fst snd]).

Ltac each_check :=
  repeat match goal with
         | |- Forall _ (_ :: _) => apply Forall_cons
         | |- Forall _ [] => apply Forall_nil
         end.

Ltac check_passes :=
  first [ apply EXPECT_EQ_add_zero | apply EXPECT_EQ_same ];
  auto 10 with nonneg.

(** The checks of the [VecAppend] test hold for all [a] and [b] without
    negative components, in every element type. *)
Theorem test_VecAppend_passes {T : ValueType} (a b : VectorType) :
  (forall i, nonneg (get a i) = true) ->
  (forall i, nonneg (get b i) = true) ->
  Forall (eq true) (test_VecAppend a b).
Proof.
  intros Ha Hb. unfold test_VecAppend. cbn zeta.
  apply Forall_app; split; apply for_dim_all; intros i Hi;
    each_check; unfold_vectors i Hi; check_passes.
Qed.

(** The checks of the [VecScaleAppend] test hold for [float] and [double]. *)
Theorem test_VecScaleAppend_passes (T : ValueType) (a b : VectorType) :
  In T TestTypes ->
  (forall i, nonneg (get a i) = true) ->
  (forall i, nonneg (get b i) = true) ->
  Forall (eq true) (test_VecScaleAppend a b).
Proof.
  intros HT Ha Hb. unfold test_VecScaleAppend. cbn zeta.
  apply Forall_app; split; apply for_dim_all; intros i Hi;
    each_check; unfold_vectors i Hi; check_passes.
Qed.

(** The checks of the [VecAdd] test. *)
Theorem test_VecAdd_passes {T : ValueType} (a b : VectorType) :
  (forall i, nonneg (get a i) = true) ->
  (forall i, nonneg (get b i) = true) ->
  Forall (eq true) (test_VecAdd a b).
Proof.
  intros Ha Hb. unfold test_VecAdd. cbn zeta.
  apply for_dim_all; intros i Hi;
    each_check; unfold_vectors i Hi; check_passes.
Qed.

(** The checks of the [VecSub] test hold for all finite [a] and [b]. *)
Theorem test_VecSub_passes {T : ValueType} (a b : VectorType) :
  (forall i, finite (get a i) = true) ->
  (forall i, finite (get b i) = true) ->
  Forall (eq true) (test_VecSub a b).
Proof.
  intros Ha Hb. unfold test_VecSub. cbn zeta.
  apply for_dim_all; intros i Hi. each_check. unfold_vectors i Hi.
  symmetry. apply same_number_eqb; [ now left | ].
  now apply sub_finite_not_nan.
Qed.

(* ================================================================== *)
(** * More on [compare]: when it returns what *)

Lemma equal_at_within (solution ref : list value) (i : nat) :
  equal_at solution ref i <->
  exists a b, nth_error solution i = Some a /\ nth_error ref i = Some b /\
              differ_by_less_than_tolerance a b.
Proof.
  unfold equal_at.
  split; intros (a & b & Ha & Hb & H); exists a, b; repeat split; auto;
    now apply isEqual_true_iff.
Qed.

(** X1. [compare] returns true exactly when the reference has an entry for
    every entry of the solution and each such pair is within tolerance;
    what the reference holds beyond the solution's length plays no part. *)
Theorem compare_true_iff
  (fs : files) (tc : Testcase) (solution : list value) :
  m_spSolution tc = Some solution ->
  snd (compare fs tc) = Returned true <->
  (List.length solution <= List.length (fs (m_reference tc)))%nat /\
  forall i a b, nth_error solution i = Some a ->
                nth_error (fs (m_reference tc)) i = Some b ->
                differ_by_less_than_tolerance a b.
Proof.
  intros Hsol. rewrite (compare_unfold fs tc solution Hsol).
  set (ref := fs (m_reference tc)).
  split.
  - intros Htrue.
    destruct (compare_loop_trichotomy solution ref)
      as [(j & _ & _ & _ & _ & E) | [(Hle & Hall & _) | (_ & _ & E)]];
      try (rewrite E in Htrue; discriminate).
    split; [ exact Hle | ].
    intros i a b Ha Hb.
    assert (Hi : (i < List.length solution)%nat)
      by (apply nth_error_Some; congruence).
    destruct (Hall i Hi) as (a' & b' & Ha' & Hb' & Heq).
    apply isEqual_true_iff. congruence.
  - intros [Hle Hall].
    rewrite compare_loop_all_equal; [ reflexivity | ].
    intros i Hi. apply in_seq in Hi.
    destruct (nth_error solution i) as [a | ] eqn:Ea;
      [ | apply nth_error_None in Ea; lia ].
    destruct (nth_error ref i) as [b | ] eqn:Eb;
      [ | apply nth_error_None in Eb; lia ].
    exists a, b. repeat split; auto.
    apply isEqual_true_iff. now apply (Hall i).
Qed.

Lemma compare_true_iff_witness :
  snd (compare (reference_file [@of_int double 1; @of_int double 2;
                                @of_int double 9])
               (solved [@of_int double 1; @of_int double 2]))
  = Returned true.
Proof.
  apply (proj2 (compare_true_iff
                  (reference_file [@of_int double 1; @of_int double 2;
                                   @of_int double 9])
                  (solved [@of_int double 1; @of_int double 2])
                  _ eq_refl)).
  split; [ cbn; lia | ].
  intros [ | [ | [ | i]]] a b Ha Hb; cbn in Ha, Hb;
    try discriminate; injection Ha as <-; injection Hb as <-;
    vm_compute; reflexivity.
Defined.

(** X2. [compare] returns false exactly when some pair is not within
    tolerance while all pairs before it are, whether or not the lengths
    agree; it then prints that index, after reading the pairs up to it, and
    nothing else. *)
Theorem compare_false_iff
  (fs : files) (tc : Testcase) (solution : list value) :
  m_spSolution tc = Some solution ->
  (snd (compare fs tc) = Returned false <->
   exists j, mismatch_at solution (fs (m_reference tc)) j /\
             forall i, (i < j)%nat ->
                       equal_at solution (fs (m_reference tc)) i)
  /\ (forall j, mismatch_at solution (fs (m_reference tc)) j ->
                (forall i, (i < j)%nat ->
                           equal_at solution (fs (m_reference tc)) i) ->
                compare fs tc
                = (visits (seq 0 j) ++
                     [ReadSolution j; ReadReference j;
                      Print ("Not equal at " ++ show_size_t j ++ endl)%string],
                   Returned false)).
Proof.
  intros Hsol. rewrite (compare_unfold fs tc solution Hsol).
  set (ref := fs (m_reference tc)).
  assert (Hrun : forall j, mismatch_at solution ref j ->
                   (forall i, (i < j)%nat -> equal_at solution ref i) ->
                   compare_loop solution ref (seq 0 (List.length solution))
                   = (visits (seq 0 j) ++
                        [ReadSolution j; ReadReference j;
                         Print ("Not equal at " ++ show_size_t j
                                  ++ endl)%string],
                      Returned false)).
  { intros j Hm Hbefore.
    assert (Hj : (j < List.length solution)%nat).
    { destruct Hm as (a & b & Ha & _). apply nth_error_Some. congruence. }
    rewrite (seq_split_at _ j Hj). apply compare_loop_mismatch; auto.
    intros i Hi. apply in_seq in Hi. apply Hbefore. lia. }
  split; [ split | exact Hrun ].
  - intros Hfalse.
    destruct (compare_loop_trichotomy solution ref)
      as [(j & _ & _ & Hm & Hb & _) | [(_ & _ & E) | (_ & _ & E)]];
      try (rewrite E in Hfalse; discriminate).
    exists j. auto.
  - intros (j & Hm & Hbefore). now rewrite (Hrun j Hm Hbefore).
Qed.

Lemma compare_false_iff_witness :
  compare (reference_file [@of_int double 1])
          (solved [@of_int double 3; @of_int double 2])
  = ([ReadSolution 0; ReadReference 0;
      Print ("Not equal at 0" ++ endl)%string], Returned false).
Proof.
  apply (proj2 (compare_false_iff
                  (reference_file [@of_int double 1])
                  (solved [@of_int double 3; @of_int double 2])
                  _ eq_refl) 0%nat).
  - exists (@of_int double 3), (@of_int double 1).
    repeat split; vm_compute; reflexivity.
  - intros i Hi. lia.
Defined.

(** X3. Once a solution is stored, [compare] ends in one of three ways: it
    returns true, it returns false, or it reads the reference out of
    bounds; the last happens exactly when the reference is shorter than the
    solution and all of its entries pass.  It prints one line when it
    returns false and nothing otherwise. *)
Theorem compare_out_of_bounds_iff
  (fs : files) (tc : Testcase) (solution : list value) :
  m_spSolution tc = Some solution ->
  (snd (compare fs tc) = OutOfBounds <->
   (List.length (fs (m_reference tc)) < List.length solution)%nat /\
   forall i, (i < List.length (fs (m_reference tc)))%nat ->
             equal_at solution (fs (m_reference tc)) i)
  /\ (snd (compare fs tc) = Returned true \/
      snd (compare fs tc) = Returned false \/
      snd (compare fs tc) = OutOfBounds)
  /\ (snd (compare fs tc) = Returned false ->
      List.length (output (fst (compare fs tc))) = 1%nat)
  /\ (snd (compare fs tc) <> Returned false ->
      output (fst (compare fs tc)) = []).
Proof.
  intros Hsol. rewrite (compare_unfold fs tc solution Hsol).
  set (ref := fs (m_reference tc)).
  destruct (compare_loop_trichotomy solution ref)
    as [(j & HjL & HjR & Hm & Hb & E) | [(Hle & Hall & E) | (Hlt & Hall & E)]];
    rewrite E; cbn [fst snd];
    rewrite ?output_app, ?output_visits.
  - repeat split; auto; try discriminate.
    + intros [Hlt Hall]. exfalso.
      apply (equal_not_mismatch solution ref j); auto.
    + intros H. now elim H.
  - repeat split; auto; try discriminate. intros [Hlt _]. lia.
  - repeat split; auto; try discriminate.
Qed.

Lemma compare_out_of_bounds_iff_witness :
  snd (compare (reference_file [@of_int double 1])
               (solved [@of_int double 1; @of_int double 2]))
  = OutOfBounds.
Proof.
  apply (proj2 (proj1 (compare_out_of_bounds_iff
                         (reference_file [@of_int double 1])
                         (solved [@of_int double 1; @of_int double 2])
                         _ eq_refl))).
  split; [ cbn; lia | ].
  intros i Hi. cbn in Hi. assert (i = 0%nat) as -> by lia.
  exists (@of_int double 1), (@of_int double 1).
  repeat split; vm_compute; reflexivity.
Defined.

(* ================================================================== *)
(** * [isEqual] as a relation *)

Section AbsoluteValue.
Variables prec emax : Z.

(** Rounding treats the two signs alike. *)
Lemma abs_binary_round_aux (s s' : bool) (mx ex : Z) (lx : location) :
  SFabs (binary_round_aux prec emax s mx ex lx)
  = SFabs (binary_round_aux prec emax s' mx ex lx).
Proof.
  unfold binary_round_aux.
  destruct (shr_fexp prec emax mx ex lx) as [mrs' e'].
  destruct (shr_fexp prec emax _ e' loc_Exact) as [mrs'' e''].
  destruct (shr_m mrs'') as [ | m | m]; try reflexivity.
  destruct (e'' <=? emax - prec); reflexivity.
Qed.

Lemma abs_binary_normalize_opp (z e : Z) (szero : bool) :
  SFabs (binary_normalize prec emax (- z) e szero)
  = SFabs (binary_normalize prec emax z e szero).
Proof.
  destruct z as [ | p | p]; cbn [Z.opp binary_normalize]; try reflexivity;
    unfold binary_round; destruct (shl_align p e _) as [mz ez];
    apply abs_binary_round_aux.
Qed.

End AbsoluteValue.

(** [|a - b| = |b - a|] in floating point. *)
Lemma abs_sub_sym {T : ValueType} (a b : value) :
  abs (sub a b) = abs (sub b a).
Proof.
  unfold abs, sub.
  destruct a as [[ | ] | [ | ] | | sa ma ea];
    destruct b as [[ | ] | [ | ] | | sb mb eb]; try reflexivity;
    try (destruct sa; reflexivity); try (destruct sb; reflexivity).
  cbn [SFsub]. rewrite (Z.min_comm eb ea).
  rewrite <- abs_binary_normalize_opp. f_equal. f_equal. lia.
Qed.

Lemma isEqual_sym (a b : value) : isEqual a b = isEqual b a.
Proof. unfold isEqual. now rewrite abs_sub_sym. Qed.

(** A number is within tolerance of itself; an infinity or a NaN is not. *)
Lemma isEqual_self (a : value) : isEqual a a = finite a.
Proof.
  destruct a as [[ | ] | [ | ] | | s m e];
    [ vm_compute; reflexivity .. | ].
  unfold isEqual, sub. cbn [SFsub finite].
  rewrite Z.sub_diag. cbn [binary_normalize]. vm_compute. reflexivity.
Qed.

(** Nothing is within tolerance of an infinity or a NaN. *)
Lemma isEqual_not_finite (a b : value) :
  finite a = false \/ finite b = false -> isEqual a b = false.
Proof.
  destruct a as [[ | ] | [ | ] | | [ | ] ma ea];
    destruct b as [[ | ] | [ | ] | | [ | ] mb eb];
    cbn [finite]; intros [H | H]; try discriminate;
    vm_compute; reflexivity.
Qed.

Lemma compare_loop_true_iff (solution ref : list value) :
  snd (compare_loop solution ref (seq 0 (List.length solution)))
  = Returned true <->
  (List.length solution <= List.length ref)%nat /\
  forall i, (i < List.length solution)%nat -> equal_at solution ref i.
Proof.
  split.
  - intros Htrue.
    destruct (compare_loop_trichotomy solution ref)
      as [(j & _ & _ & _ & _ & E) | [(Hle & Hall & _) | (_ & _ & E)]];
      try (rewrite E in Htrue; discriminate).
    auto.
  - intros [_ Hall]. rewrite compare_loop_all_equal; [ reflexivity | ].
    intros i Hi. apply in_seq in Hi. apply Hall. lia.
Qed.

(** X4. A solution compared with itself passes exactly when all of its
    entries are finite: an infinity or a NaN differs from itself. *)
Theorem compare_with_itself
  (fs : files) (tc : Testcase) (solution : list value) :
  m_spSolution tc = Some solution ->
  fs (m_reference tc) = solution ->
  snd (compare fs tc) = Returned true <->
  Forall (fun v => finite v = true) solution.
Proof.
  intros Hsol Href.
  rewrite (compare_unfold fs tc solution Hsol), Href, compare_loop_true_iff.
  split.
  - intros [_ Hall]. apply Forall_forall. intros v Hv.
    apply In_nth_error in Hv as (i & Hi).
    assert (Hlt : (i < List.length solution)%nat)
      by (apply nth_error_Some; congruence).
    destruct (Hall i Hlt) as (a & b & Ha & Hb & E).
    assert (a = v) by congruence. assert (b = v) by congruence. subst a b.
    now rewrite isEqual_self in E.
  - intros Hfin. split; [ lia | ]. intros i Hi.
    destruct (nth_error solution i) as [v | ] eqn:Ev;
      [ | apply nth_error_None in Ev; lia ].
    exists v, v. repeat split; auto.
    rewrite isEqual_self.
    rewrite Forall_forall in Hfin. apply Hfin.
    eapply nth_error_In; eauto.
Qed.

Lemma compare_with_itself_witness :
  snd (compare (reference_file [@of_int double 1; @literal double 66 2])
               (solved [@of_int double 1; @literal double 66 2]))
  = Returned true.
Proof.
  apply (proj2 (compare_with_itself
                  (reference_file [@of_int double 1; @literal double 66 2])
                  (solved [@of_int double 1; @literal double 66 2])
                  _ eq_refl eq_refl)).
  repeat constructor.
Defined.

(** The loop gives the same result and prints the same when the two vectors
    change places, as long as both have an entry at every index visited. *)
Lemma compare_loop_swap (u v : list value) (indices : list nat) :
  (forall i, In i indices ->
             (i < List.length u)%nat /\ (i < List.length v)%nat) ->
  snd (compare_loop u v indices) = snd (compare_loop v u indices) /\
  output (fst (compare_loop u v indices))
  = output (fst (compare_loop v u indices)).
Proof.
  induction indices as [ | i rest IH]; intros Hin; [ split; reflexivity | ].
  destruct (Hin i (or_introl eq_refl)) as [Hu Hv].
  apply nth_error_Some in Hu. apply nth_error_Some in Hv.
  cbn [compare_loop].
  destruct (nth_error u i) as [a | ]; [ | congruence ].
  destruct (nth_error v i) as [b | ]; [ | congruence ].
  rewrite (isEqual_sym b a).
  destruct (isEqual a b); cbn [negb]; [ | split; reflexivity ].
  destruct IH as [IHr IHo]; [ intros; apply Hin; now right | ].
  destruct (compare_loop u v rest) as [t r].
  destruct (compare_loop v u rest) as [t' r'].
  cbn [fst snd] in *. split; [ exact IHr | ].
  change (ReadSolution i :: ReadReference i :: t)
    with ([ReadSolution i; ReadReference i] ++ t).
  change (ReadSolution i :: ReadReference i :: t')
    with ([ReadSolution i; ReadReference i] ++ t').
  rewrite !output_app. now rewrite IHo.
Qed.

(** X5. The test is symmetric: [isEqual(a, b)] and [isEqual(b, a)] agree,
    and with vectors of one length [compare] gives the same result and
    prints the same index whichever of the two is the solution. *)
Theorem compare_symmetric
  (fs1 fs2 : files) (tc1 tc2 : Testcase) (u v : list value) :
  m_spSolution tc1 = Some u -> fs1 (m_reference tc1) = v ->
  m_spSolution tc2 = Some v -> fs2 (m_reference tc2) = u ->
  List.length u = List.length v ->
  (forall a b, isEqual a b = isEqual b a) /\
  snd (compare fs1 tc1) = snd (compare fs2 tc2) /\
  output (fst (compare fs1 tc1)) = output (fst (compare fs2 tc2)).
Proof.
  intros Hu Hv Hv' Hu' Hlen.
  split; [ exact isEqual_sym | ].
  rewrite (compare_unfold fs1 tc1 u Hu), (compare_unfold fs2 tc2 v Hv').
  rewrite Hv, Hu', <- Hlen.
  apply compare_loop_swap. intros i Hi. apply in_seq in Hi. lia.
Qed.

Lemma compare_symmetric_witness :
  snd (compare (reference_file [@of_int double 1; @of_int double 5])
               (solved [@of_int double 1; @of_int double 2]))
  = snd (compare (reference_file [@of_int double 1; @of_int double 2])
                 (solved [@of_int double 1; @of_int double 5])).
Proof.
  exact (proj1 (proj2 (compare_symmetric
                         (reference_file [@of_int double 1; @of_int double 5])
                         (reference_file [@of_int double 1; @of_int double 2])
                         (solved [@of_int double 1; @of_int double 2])
                         (solved [@of_int double 1; @of_int double 5])
                         _ _ eq_refl eq_refl eq_refl eq_refl eq_refl))).
Defined.

(** X6. [compare] never passes a solution that holds an infinity or a NaN,
    nor one matched against such a reference entry: when it returns true,
    every entry of the solution and every reference entry it was compared
    with is finite. *)
Theorem compare_true_finite
  (fs : files) (tc : Testcase) (solution : list value) :
  m_spSolution tc = Some solution ->
  snd (compare fs tc) = Returned true ->
  Forall (fun v => finite v = true) solution /\
  Forall (fun v => finite v = true)
         (firstn (List.length solution) (fs (m_reference tc))).
Proof.
  intros Hsol Htrue.
  rewrite (compare_unfold fs tc solution Hsol) in Htrue.
  apply compare_loop_true_iff in Htrue as [Hle Hall].
  assert (Hpair : forall i a b,
             nth_error solution i = Some a ->
             nth_error (fs (m_reference tc)) i = Some b ->
             finite a = true /\ finite b = true).
  { intros i a b Ha Hb.
    assert (Hi : (i < List.length solution)%nat)
      by (apply nth_error_Some; congruence).
    destruct (Hall i Hi) as (a' & b' & Ha' & Hb' & E).
    assert (a' = a) by congruence. assert (b' = b) by congruence. subst.
    destruct (finite a) eqn:Fa, (finite b) eqn:Fb; auto;
      rewrite isEqual_not_finite in E by auto; discriminate. }
  split; apply Forall_forall; intros x Hx;
    apply In_nth_error in Hx as (i & Hi).
  - assert (Hlt : (i < List.length solution)%nat)
      by (apply nth_error_Some; congruence).
    destruct (nth_error (fs (m_reference tc)) i) as [b | ] eqn:Eb;
      [ | apply nth_error_None in Eb; lia ].
    exact (proj1 (Hpair i x b Hi Eb)).
  - rewrite nth_error_firstn in Hi.
    destruct (Nat.ltb_spec i (List.length solution)); [ | discriminate ].
    destruct (nth_error solution i) as [a | ] eqn:Ea;
      [ | apply nth_error_None in Ea; lia ].
    exact (proj2 (Hpair i a x Ea Hi)).
Qed.

Lemma compare_true_finite_witness :
  Forall (fun v => finite v = true) [@of_int double 1; @of_int double 2].
Proof.
  apply (compare_true_finite
           (reference_file [@of_int double 1; @of_int double 2])
           (solved [@of_int double 1; @of_int double 2]) _ eq_refl).
  vm_compute. reflexivity.
Defined.

(** X7. A pass stays a pass when the solution is cut short and when the
    reference grows: [compare] checks that the solution is a prefix of the
    reference within tolerance, not that the two agree in length. *)
Theorem compare_true_shorter_solution
  (fs fs' : files) (tc tc' : Testcase) (solution extra : list value)
  (k : nat) :
  m_spSolution tc = Some solution ->
  m_spSolution tc' = Some (firstn k solution) ->
  fs' (m_reference tc') = fs (m_reference tc) ++ extra ->
  snd (compare fs tc) = Returned true ->
  snd (compare fs' tc') = Returned true.
Proof.
  intros Hsol Hsol' Href Htrue.
  rewrite (compare_unfold fs tc solution Hsol) in Htrue.
  apply compare_loop_true_iff in Htrue as [Hle Hall].
  rewrite (compare_unfold fs' tc' _ Hsol'), Href.
  apply compare_loop_true_iff.
  rewrite length_firstn, length_app. split; [ lia | ].
  intros i Hi.
  destruct (Hall i ltac:(lia)) as (a & b & Ha & Hb & E).
  exists a, b. repeat split; auto.
  - rewrite nth_error_firstn.
    destruct (Nat.ltb_spec i k); [ exact Ha | lia ].
  - rewrite nth_error_app1; [ exact Hb | ].
    apply nth_error_Some. congruence.
Qed.

Lemma compare_true_shorter_solution_witness :
  snd (compare (reference_file [@of_int double 1; @of_int double 2;
                                @of_int double 7])
               (solved [@of_int double 1])) = Returned true.
Proof.
  apply (compare_true_shorter_solution
           (reference_file [@of_int double 1; @of_int double 2])
           (reference_file [@of_int double 1; @of_int double 2;
                            @of_int double 7])
           (solved [@of_int double 1; @of_int double 2])
           (solved [@of_int double 1])
           [@of_int double 1; @of_int double 2] [@of_int double 7] 1%nat
           eq_refl eq_refl eq_refl).
  vm_compute. reflexivity.
Defined.

(* ================================================================== *)
(** * Writing a reference and reading it back *)

Lemma string_length_append (s1 s2 : string) :
  String.length (s1 ++ s2)%string
  = (String.length s1 + String.length s2)%nat.
Proof. induction s1 as [ | ch s1 IH]; cbn; congruence. Qed.

Section ReferenceFiles.
Variable show : value -> string.
Variable extract : string -> option (value * string).
Variable can_open : string -> bool.
Variable back : value -> value.

Hypothesis Hskip : skips_newline extract.
Hypothesis Hend : fails_at_end extract.

(** Every value written takes a character at least: its newline. *)
Lemma length_written (vec : list value) :
  (List.length vec <= String.length (written show vec))%nat.
Proof.
  induction vec as [ | v vec IH]; cbn [written List.length]; [ lia | ].
  rewrite !string_length_append. cbn [endl String.length]. lia.
Qed.

Lemma extract_written_stop (post : list value) :
  stops_reading show extract post -> extract (written show post) = None.
Proof.
  destruct post as [ | v post]; intros H; [ exact Hend | apply H ].
Qed.

Lemma extract_all_written (pre post : list value) :
  (forall v, In v pre -> reads_back show extract back v) ->
  stops_reading show extract post ->
  forall fuel, (List.length pre < fuel)%nat ->
    extract_all extract fuel (endl ++ written show (pre ++ post))%string
    = map back pre.
Proof.
  intros Hpre Hpost.
  induction pre as [ | v pre IH]; intros [ | fuel] Hfuel;
    cbn [List.length] in Hfuel; try lia;
    cbn [extract_all]; rewrite Hskip.
  - cbn [app]. now rewrite extract_written_stop.
  - cbn [app written]. rewrite (Hpre v (or_introl eq_refl)).
    cbn [map]. f_equal. apply IH; [ | lia ].
    intros w Hw. apply Hpre. now right.
Qed.

Lemma read_file_written (pre post : list value) :
  (forall v, In v pre -> reads_back show extract back v) ->
  stops_reading show extract post ->
  read_file extract (written show (pre ++ post)) = map back pre.
Proof.
  intros Hpre Hpost. unfold read_file.
  destruct pre as [ | v pre].
  - cbn [app extract_all]. now rewrite extract_written_stop.
  - cbn [app written extract_all].
    rewrite (Hpre v (or_introl eq_refl)). cbn [map]. f_equal.
    apply extract_all_written; auto.
    + intros w Hw. apply Hpre. now right.
    + rewrite !string_length_append.
      assert (H := length_written (pre ++ post)).
      rewrite length_app in H.
      change (String.length endl) with 1%nat. lia.
Qed.

Lemma parsed_written (d : disk) (tc : Testcase) (vec : list value) :
  can_open (m_reference tc) = true ->
  parsed extract (write_reference show can_open d tc vec) (m_reference tc)
  = read_file extract (written show vec).
Proof.
  intros Hopen. unfold parsed, write_reference.
  now rewrite Hopen, String.eqb_refl.
Qed.

End ReferenceFiles.

(** X8. Written by [write_reference] and read by [read_reference], a vector
    comes back entry by entry as the stream library reads back what it
    wrote, when each entry's text is readable; the other files are left as
    they were. *)
Theorem write_then_read_reference
  (show : value -> string) (extract : string -> option (value * string))
  (can_open : string -> bool) (back : value -> value)
  (d : disk) (tc : Testcase) (vec : list value) :
  skips_newline extract -> fails_at_end extract ->
  can_open (m_reference tc) = true ->
  (forall v, In v vec -> reads_back show extract back v) ->
  m_spReference
    (read_reference
       (parsed extract (write_reference show can_open d tc vec)) tc)
  = Some (map back vec)
  /\ forall name, name <> m_reference tc ->
                  write_reference show can_open d tc vec name = d name.
Proof.
  intros Hskip Hend Hopen Hvec. split.
  - cbn [read_reference m_spReference]. f_equal.
    rewrite parsed_written by assumption.
    rewrite <- (app_nil_r vec) at 1.
    apply read_file_written; auto. exact I.
  - intros name Hname. unfold write_reference. rewrite Hopen.
    apply String.eqb_neq in Hname. now rewrite Hname.
Qed.

Lemma write_then_read_reference_witness :
  m_spReference
    (read_reference
       (parsed digit_extract
          (write_reference digit_show (fun _ => true) (fun _ => None)
             (solved []) [zero; @of_int double 1; zero]))
       (solved []))
  = Some [zero; @of_int double 1; zero].
Proof.
  apply (proj1 (write_then_read_reference
                  digit_show digit_extract (fun _ => true) (fun v => v)
                  (fun _ => None) (solved [])
                  [zero; @of_int double 1; zero]
                  (fun text => eq_refl) eq_refl eq_refl
                  ltac:(intros v [<- | [<- | [<- | []]]] rest;
                        reflexivity))).
Defined.

(** X9. A reference written from the solution makes [compare] pass, when
    each entry is read back within tolerance of what was written. *)
Theorem compare_after_write_reference
  (show : value -> string) (extract : string -> option (value * string))
  (can_open : string -> bool) (back : value -> value)
  (d : disk) (tc : Testcase) (solution : list value) :
  skips_newline extract -> fails_at_end extract ->
  can_open (m_reference tc) = true ->
  m_spSolution tc = Some solution ->
  (forall v, In v solution ->
             reads_back show extract back v /\ isEqual v (back v) = true) ->
  snd (compare (parsed extract
                  (write_reference show can_open d tc solution)) tc)
  = Returned true.
Proof.
  intros Hskip Hend Hopen Hsol Hvec.
  rewrite (compare_unfold _ tc solution Hsol).
  rewrite parsed_written by assumption.
  rewrite <- (app_nil_r solution) at 2.
  rewrite (read_file_written show extract back Hskip Hend solution []);
    [ | intros v Hv; apply Hvec, Hv | exact I ].
  apply compare_loop_true_iff. rewrite length_map. split; [ lia | ].
  intros i Hi.
  destruct (nth_error solution i) as [v | ] eqn:Ev;
    [ | apply nth_error_None in Ev; lia ].
  exists v, (back v). repeat split; auto.
  - rewrite nth_error_map, Ev. reflexivity.
  - apply Hvec. eapply nth_error_In; eauto.
Qed.

Lemma compare_after_write_reference_witness :
  snd (compare (parsed digit_extract
                  (write_reference digit_show (fun _ => true) (fun _ => None)
                     (solved [zero; @of_int double 1])
                     [zero; @of_int double 1]))
               (solved [zero; @of_int double 1]))
  = Returned true.
Proof.
  apply (compare_after_write_reference
           digit_show digit_extract (fun _ => true) (fun v => v)
           (fun _ => None) (solved [zero; @of_int double 1])
           [zero; @of_int double 1]
           (fun text => eq_refl) eq_refl eq_refl eq_refl).
  intros v [<- | [<- | []]]; (split; [ intros rest | ]; reflexivity).
Defined.

(** X10. A value whose text cannot be read cuts the reference short: what
    [read_reference] finds ends in front of it, and [compare], finding the
    entries before it within tolerance, then reads the reference out of
    bounds. *)
Theorem compare_after_unreadable_entry
  (show : value -> string) (extract : string -> option (value * string))
  (can_open : string -> bool) (back : value -> value)
  (d : disk) (tc : Testcase) (pre post : list value) (bad : value) :
  skips_newline extract -> fails_at_end extract ->
  can_open (m_reference tc) = true ->
  m_spSolution tc = Some (pre ++ bad :: post) ->
  (forall v, In v pre ->
             reads_back show extract back v /\ isEqual v (back v) = true) ->
  unreadable show extract bad ->
  parsed extract
    (write_reference show can_open d tc (pre ++ bad :: post))
    (m_reference tc)
  = map back pre
  /\ snd (compare (parsed extract
                     (write_reference show can_open d tc
                        (pre ++ bad :: post))) tc)
     = OutOfBounds.
Proof.
  intros Hskip Hend Hopen Hsol Hpre Hbad.
  assert (Hread : parsed extract
                    (write_reference show can_open d tc (pre ++ bad :: post))
                    (m_reference tc)
                  = map back pre).
  { rewrite parsed_written by assumption.
    apply read_file_written; auto. intros v Hv. apply Hpre, Hv. }
  split; [ exact Hread | ].
  rewrite (compare_unfold _ tc _ Hsol), Hread.
  assert (Hlen : (List.length (map back pre)
                  < List.length (pre ++ bad :: post))%nat)
    by (rewrite length_map, length_app; cbn; lia).
  rewrite (seq_split_at _ _ Hlen), compare_loop_out_of_bounds; auto;
    try lia.
  - intros i Hi. apply in_seq in Hi. rewrite length_map in Hi.
    destruct (nth_error pre i) as [v | ] eqn:Ev;
      [ | apply nth_error_None in Ev; lia ].
    exists v, (back v). repeat split.
    + rewrite nth_error_app1 by lia. exact Ev.
    + rewrite nth_error_map, Ev. reflexivity.
    + apply Hpre. eapply nth_error_In; eauto.
Qed.

Lemma compare_after_unreadable_entry_witness :
  snd (compare (parsed digit_extract
                  (write_reference digit_show (fun _ => true) (fun _ => None)
                     (solved [zero; S754_nan; zero])
                     [zero; S754_nan; zero]))
               (solved [zero; S754_nan; zero]))
  = OutOfBounds.
Proof.
  apply (proj2 (compare_after_unreadable_entry
                  digit_show digit_extract (fun _ => true) (fun v => v)
                  (fun _ => None) (solved [zero; S754_nan; zero])
                  [zero] [zero] S754_nan
                  (fun text => eq_refl) eq_refl eq_refl eq_refl
                  ltac:(intros v [<- | []];
                        (split; [ intros rest | ]; reflexivity))
                  (fun rest => eq_refl))).
Defined.

(* ================================================================== *)
(** * The regression test and the typed unit tests *)

Lemma perform_returns (fw : framework) (todo : list call) :
  forall made made',
    perform fw made todo = (made', None) -> made' = made ++ todo.
Proof.
  induction todo as [ | c rest IH]; intros made made' H; cbn [perform] in H.
  - injection H as <-. now rewrite app_nil_r.
  - destruct (fw made c) as [msg | ]; [ discriminate | ].
    rewrite (IH _ _ H), <- app_assoc. reflexivity.
Qed.

Lemma perform_throws (fw : framework) (todo : list call) :
  forall made made' msg,
    perform fw made todo = (made', Some msg) ->
    exists before c after,
      todo = before ++ c :: after /\
      made' = made ++ before ++ [c] /\
      fw (made ++ before) c = Some msg.
Proof.
  induction todo as [ | c rest IH]; intros made made' msg H;
    cbn [perform] in H; [ discriminate | ].
  destruct (fw made c) as [msg' | ] eqn:Ec.
  - injection H as <- <-. exists [], c, rest.
    rewrite app_nil_r. cbn [app]. auto.
  - destruct (IH _ _ _ H) as (before & c' & after & -> & -> & Hfw).
    exists (c :: before), c', after.
    rewrite <- !app_assoc in *. cbn [app] in *. auto.
Qed.

(** X11. In [TEST(Laplace, RegressionTests)], when every framework call of
    [Laplace::run] returns, [EXPECT_TRUE] is handed true exactly when the
    reference file has an entry within tolerance for every value of the
    solution; [compare] then finds the solution [run] stored (no null
    pointer), after all the calls of [run] on the grid file and [pcl::Init]
    in a parallel build.  When a framework call throws, the test ends with
    that exception: the calls after it are not made and [compare] does not
    run. *)
Theorem TEST_Laplace_RegressionTests_outcome
  (UG_PARALLEL : bool) (fw : framework) (values : list value) (fs : files) :
  (forall made,
      perform fw [] (Laplace.run_calls (Testcase_new grid reference))
      = (made, None) ->
      (snd (TEST_Laplace_RegressionTests UG_PARALLEL fw values fs)
       = Returned true
       <-> (List.length values <= List.length (fs reference))%nat /\
           forall i a b, nth_error values i = Some a ->
                         nth_error (fs reference) i = Some b ->
                         differ_by_less_than_tolerance a b)
      /\ snd (TEST_Laplace_RegressionTests UG_PARALLEL fw values fs)
         <> NullPointer
      /\ (forall msg,
             snd (TEST_Laplace_RegressionTests UG_PARALLEL fw values fs)
             <> Thrown msg)
      /\ exists steps,
           fst (TEST_Laplace_RegressionTests UG_PARALLEL fw values fs)
           = (if UG_PARALLEL then [pcl_Init] else [])
               ++ map Framework
                      (Laplace.run_calls (Testcase_new grid reference))
               ++ map Compared steps)
  /\ (forall made msg,
         perform fw [] (Laplace.run_calls (Testcase_new grid reference))
         = (made, Some msg) ->
         TEST_Laplace_RegressionTests UG_PARALLEL fw values fs
         = ((if UG_PARALLEL then [pcl_Init] else []) ++ map Framework made,
            Thrown msg)
         /\ exists before c after,
              Laplace.run_calls (Testcase_new grid reference)
              = before ++ c :: after /\
              made = before ++ [c] /\
              fw before c = Some msg).
Proof.
  unfold TEST_Laplace_RegressionTests, Laplace.run. split.
  - intros made Hrun. rewrite Hrun.
    apply perform_returns in Hrun. cbn [app] in Hrun. subst made.
    set (ran := {| m_spReference := _; m_spSolution := Some values;
                   m_gridname := _; m_reference := _ |}).
    assert (E := compare_unfold fs ran values eq_refl).
    change (m_reference ran) with reference in E.
    destruct (compare fs ran) as [steps result]. cbn [fst snd].
    assert (Hresult : result
                      = snd (compare_loop values (fs reference)
                               (seq 0 (List.length values))))
      by now rewrite <- E.
    split; [ | split; [ | split ] ].
    + rewrite Hresult, compare_loop_true_iff. split; intros [Hle Hall].
      * split; [ exact Hle | ]. intros i a b Ha Hb.
        assert (Hi : (i < List.length values)%nat)
          by (apply nth_error_Some; congruence).
        destruct (Hall i Hi) as (a' & b' & Ha' & Hb' & Heq).
        apply isEqual_true_iff. congruence.
      * split; [ exact Hle | ]. intros i Hi.
        destruct (nth_error values i) as [a | ] eqn:Ea;
          [ | apply nth_error_None in Ea; lia ].
        destruct (nth_error (fs reference) i) as [b | ] eqn:Eb;
          [ | apply nth_error_None in Eb; lia ].
        exists a, b. repeat split; auto.
        apply isEqual_true_iff. now apply (Hall i).
    + rewrite Hresult.
      destruct (compare_loop_trichotomy values (fs reference))
        as [(j & _ & _ & _ & _ & E') | [(_ & _ & E') | (_ & _ & E')]];
        rewrite E'; discriminate.
    + intros msg. rewrite Hresult.
      destruct (compare_loop_trichotomy values (fs reference))
        as [(j & _ & _ & _ & _ & E') | [(_ & _ & E') | (_ & _ & E')]];
        rewrite E'; discriminate.
    + exists steps. reflexivity.
  - intros made msg Hrun. rewrite Hrun. split; [ reflexivity | ].
    apply perform_throws in Hrun.
    destruct Hrun as (before & c & after & E1 & E2 & E3).
    exists before, c, after. auto.
Qed.

Lemma TEST_Laplace_RegressionTests_outcome_witness :
  snd (TEST_Laplace_RegressionTests true fw_returns
         [@of_int double 1] (fun _ => [@of_int double 1; @of_int double 2]))
  = Returned true
  /\ TEST_Laplace_RegressionTests false fw_no_grid
       [@of_int double 1] (fun _ => [@of_int double 1])
     = ([Framework (InitUG 3 "CPU" 1); Framework Domain_new;
         Framework (LoadDomain grid)],
        Thrown "grid file not found").
Proof.
  split.
  - apply (proj1 (proj1 (TEST_Laplace_RegressionTests_outcome
                           true fw_returns [@of_int double 1]
                           (fun _ => [@of_int double 1; @of_int double 2]))
                        _ eq_refl)).
    split; [ cbn; lia | ].
    intros [ | [ | [ | i]]] a b Ha Hb; cbn in Ha, Hb; try discriminate.
    injection Ha as <-; injection Hb as <-. vm_compute. reflexivity.
  - apply (proj1 (proj2 (TEST_Laplace_RegressionTests_outcome
                           false fw_no_grid [@of_int double 1]
                           (fun _ => [@of_int double 1]))
                        [InitUG 3 "CPU" 1; Domain_new; LoadDomain grid]
                        "grid file not found" eq_refl)).
Defined.

Lemma get_componentwise_beyond (f : nat -> value) (i : nat) :
  (dim <= i)%nat -> get (componentwise f) i = zero.
Proof.
  intros Hi. unfold get, componentwise. apply nth_overflow.
  now rewrite length_map, length_seq.
Qed.

Lemma nonneg_get_componentwise (f : nat -> value) :
  (forall k, nonneg (f k) = true) ->
  forall i, nonneg (get (componentwise f) i) = true.
Proof.
  intros Hf i. destruct (Nat.lt_ge_cases i dim) as [Hi | Hi].
  - now rewrite get_componentwise.
  - now rewrite get_componentwise_beyond.
Qed.

Lemma finite_get_componentwise (f : nat -> value) :
  (forall k, finite (f k) = true) ->
  forall i, finite (get (componentwise f) i) = true.
Proof.
  intros Hf i. destruct (Nat.lt_ge_cases i dim) as [Hi | Hi].
  - now rewrite get_componentwise.
  - now rewrite get_componentwise_beyond.
Qed.

(** The sample draws are numbers of [0, 10]. *)
Lemma sample_urand_drawn (k : nat) :
  nonneg (@sample_urand double k) = true /\
  finite (@sample_urand double k) = true.
Proof.
  unfold sample_urand.
  generalize (Z.mod_pos_bound (Z.of_nat k) 11 eq_refl).
  generalize (Z.of_nat k mod 11). intros z Hz.
  assert (H : z = 0 \/ z = 1 \/ z = 2 \/ z = 3 \/ z = 4 \/ z = 5 \/ z = 6
              \/ z = 7 \/ z = 8 \/ z = 9 \/ z = 10) by lia.
  repeat (destruct H as [-> | H]; [ split; reflexivity | ]).
  subst z. split; reflexivity.
Qed.

(** X12. The [VecAppend] test passes in every element type, whatever
    numbers [urand] draws, as long as none is negative or a NaN. *)
Theorem TYPED_TEST_VecAppend_passes {T : ValueType}
  (urand : nat -> value) (drawn : nat) :
  (forall k, nonneg (urand k) = true) ->
  Forall (eq true) (TYPED_TEST urand drawn test_VecAppend).
Proof.
  intros Hdraw. unfold TYPED_TEST, VectorTests_new, reset.
  cbn [Fixture.a Fixture.b].
  apply test_VecAppend_passes; apply nonneg_get_componentwise; auto.
Qed.

Lemma TYPED_TEST_VecAppend_passes_witness :
  Forall (eq true) (TYPED_TEST (@sample_urand double) 12 test_VecAppend).
Proof.
  apply (@TYPED_TEST_VecAppend_passes double).
  intros k. apply sample_urand_drawn.
Defined.

(** X13. The [VecScaleAppend] test passes for [float] and for [double],
    whatever numbers [urand] draws, as long as none is negative or a
    NaN. *)
Theorem TYPED_TEST_VecScaleAppend_passes
  (T : ValueType) (urand : nat -> value) (drawn : nat) :
  In T TestTypes ->
  (forall k, nonneg (urand k) = true) ->
  Forall (eq true) (TYPED_TEST urand drawn test_VecScaleAppend).
Proof.
  intros HT Hdraw. unfold TYPED_TEST, VectorTests_new, reset.
  cbn [Fixture.a Fixture.b].
  apply test_VecScaleAppend_passes; auto;
    apply nonneg_get_componentwise; auto.
Qed.

Lemma TYPED_TEST_VecScaleAppend_passes_witness :
  Forall (eq true)
         (@TYPED_TEST double (@sample_urand double) 12 test_VecScaleAppend).
Proof.
  apply (TYPED_TEST_VecScaleAppend_passes double).
  - right. left. reflexivity.
  - intros k. apply sample_urand_drawn.
Defined.

(** X14. The [VecAdd] test passes in every element type, whatever numbers
    [urand] draws, as long as none is negative or a NaN. *)
Theorem TYPED_TEST_VecAdd_passes {T : ValueType}
  (urand : nat -> value) (drawn : nat) :
  (forall k, nonneg (urand k) = true) ->
  Forall (eq true) (TYPED_TEST urand drawn test_VecAdd).
Proof.
  intros Hdraw. unfold TYPED_TEST, VectorTests_new, reset.
  cbn [Fixture.a Fixture.b].
  apply test_VecAdd_passes; apply nonneg_get_componentwise; auto.
Qed.

Lemma TYPED_TEST_VecAdd_passes_witness :
  Forall (eq true) (TYPED_TEST (@sample_urand double) 12 test_VecAdd).
Proof.
  apply (@TYPED_TEST_VecAdd_passes double).
  intros k. apply sample_urand_drawn.
Defined.

(** X15. The [VecSub] test passes in every element type, whatever finite
    numbers [urand] draws, of either sign. *)
Theorem TYPED_TEST_VecSub_passes {T : ValueType}
  (urand : nat -> value) (drawn : nat) :
  (forall k, finite (urand k) = true) ->
  Forall (eq true) (TYPED_TEST urand drawn test_VecSub).
Proof.
  intros Hdraw. unfold TYPED_TEST, VectorTests_new, reset.
  cbn [Fixture.a Fixture.b].
  apply test_VecSub_passes; apply finite_get_componentwise; auto.
Qed.

Lemma TYPED_TEST_VecSub_passes_witness :
  Forall (eq true) (TYPED_TEST (@sample_urand double) 12 test_VecSub).
Proof.
  apply (@TYPED_TEST_VecSub_passes double).
  intros k. apply sample_urand_drawn.
Defined.

(* ================================================================== *)
(** * [VecPow] and [std::pow] *)





